(** * DecentralMind: Scripts/convert_deepseek_model.py

    A shallow embedding of the DeepSeek-R1 to MLX conversion script and the
    properties of its pipeline: catalog check, output path allocation,
    quantization parameters, smoke test, manifest writing and exit codes.

    The script is effectful.  Its effects are modelled by explicit state
    passing over a [State] (file system, console, log of calls into the
    external libraries, number of clock and random reads so far); what the
    outside decides (the clock, the random generator, the external
    converter and loader, what the operating system answers to an
    existence test, whether a file can be opened) is a [World] of oracles
    the pipeline is parametrised by. *)

From Stdlib Require Import ZArith NArith QArith.QArith_base String Ascii List Lia DecimalString.
From stdpp Require Import gmap strings list fin_maps.

Set Warnings "-register-all".
Open Scope string_scope.

(* ===================================================================== *)
(** * Python strings *)
(* ===================================================================== *)

Module PyStr.

Definition nl : string := String "010"%char EmptyString.
Definition dquote : string := String "034"%char EmptyString.
Definition slash : ascii := "/"%char.

(** [sep.join(l)] *)
Fixpoint join (sep : string) (l : list string) : string :=
  match l with
  | [] => ""
  | [x] => x
  | x :: rest => x +:+ sep +:+ join sep rest
  end.

(** [s.split(c)] for a one-character separator: never the empty list. *)
Fixpoint split (c : ascii) (s : string) : list string :=
  match s with
  | EmptyString => [""]
  | String a rest =>
      if Ascii.eqb a c then "" :: split c rest
      else match split c rest with
           | [] => [String a ""]
           | h :: t => String a h :: t
           end
  end.

(** [c in s] *)
Fixpoint contains (c : ascii) (s : string) : bool :=
  match s with
  | EmptyString => false
  | String a rest => Ascii.eqb a c || contains c rest
  end.

(** [s * n] *)
Fixpoint repeat (s : string) (n : nat) : string :=
  match n with
  | O => ""
  | S k => s +:+ repeat s k
  end.

(** [str(n)] for a non-negative integer. *)
Definition str_int (n : N) : string :=
  NilEmpty.string_of_uint (N.to_uint n).

(** ["%0<w>d" % n]: decimal, padded on the left with zeros to width [w]. *)
Definition zfill (w : nat) (n : N) : string :=
  let s := str_int n in
  repeat "0" (w - String.length s) +:+ s.

Definition is_digit (a : ascii) : bool :=
  let n := nat_of_ascii a in (48 <=? n)%nat && (n <=? 57)%nat.

Fixpoint all_digits (s : string) : bool :=
  match s with
  | EmptyString => true
  | String a rest => is_digit a && all_digits rest
  end.

Definition hex_digit (n : nat) : ascii :=
  match String.get n "0123456789abcdef" with
  | Some a => a
  | None => "0"%char
  end.

Definition backslash : ascii := ascii_of_nat 92.
Definition squote : ascii := "'"%char.

(** One character inside [repr(s)]: the enclosing quote and the
    backslash are escaped with a backslash, tab, line feed and carriage
    return by their letters, the other control characters in
    hexadecimal. *)
Definition repr_char (quote a : ascii) : string :=
  let n := nat_of_ascii a in
  if Ascii.eqb a quote || Ascii.eqb a backslash then String backslash (String a "")
  else if Nat.eqb n 9 then String backslash "t"
  else if Nat.eqb n 10 then String backslash "n"
  else if Nat.eqb n 13 then String backslash "r"
  else if Nat.ltb n 32 || Nat.eqb n 127 then
    String backslash
      (String "x" (String (hex_digit (n / 16)) (String (hex_digit (n mod 16)) "")))
  else String a "".

Fixpoint repr_body (quote : ascii) (s : string) : string :=
  match s with
  | EmptyString => ""
  | String a rest => repr_char quote a +:+ repr_body quote rest
  end.

(** [repr(s)]: single quotes, unless the string has a single quote and no
    double quote.  A character outside ASCII is taken for printable, and
    so left as it is. *)
Definition repr (s : string) : string :=
  let quote :=
    if contains squote s && negb (contains (ascii_of_nat 34) s)
    then ascii_of_nat 34 else squote in
  String quote (repr_body quote s) +:+ String quote "".

(** [repr(l)] of a list of strings. *)
Definition repr_list (l : list string) : string :=
  "[" +:+ join ", " (map repr l) +:+ "]".

End PyStr.

(* ===================================================================== *)
(** * pathlib (POSIX flavour) *)
(* ===================================================================== *)

Module Pathlib.
Import PyStr.

(** A parsed path: the root (empty, one slash or two slashes) and the
    components after it.  POSIX paths have no drive. *)
Record Path : Type := mkPath { root : string; tail : list string }.

(** [splitroot]: exactly two leading slashes are kept as they are, one
    or three and more collapse to one. *)
Definition splitroot (s : string) : string * string :=
  match s with
  | String a rest =>
      if Ascii.eqb a slash then
        match rest with
        | String b rest' =>
            if Ascii.eqb b slash then
              match rest' with
              | String c _ => if Ascii.eqb c slash then ("/", rest) else ("//", rest')
              | EmptyString => ("//", rest')
              end
            else ("/", rest)
        | EmptyString => ("/", rest)
        end
      else ("", s)
  | EmptyString => ("", s)
  end.

Definition keep_part (x : string) : bool :=
  negb (String.eqb x "") && negb (String.eqb x ".").

(** [Path(s)]: empty components and "." components are dropped. *)
Definition parse (s : string) : Path :=
  let '(r, rel) := splitroot s in
  mkPath r (List.filter keep_part (split slash rel)).

(** [str(p)] *)
Definition str (p : Path) : string :=
  match root p, tail p with
  | "", [] => "."
  | r, t => r +:+ join "/" t
  end.

(** [p.name] *)
Definition name (p : Path) : string := List.last (tail p) "".

(** [p.parent]: a path without components is its own parent. *)
Definition parent (p : Path) : Path :=
  match tail p with
  | [] => p
  | _ => mkPath (root p) (List.removelast (tail p))
  end.

(** [p / key] for a string [key]: an absolute [key] replaces [p]. *)
Definition truediv (p : Path) (key : string) : Path :=
  let k := parse key in
  if String.eqb (root k) "" then mkPath (root p) (tail p ++ tail k) else k.

End Pathlib.

(* ===================================================================== *)
(** * datetime *)
(* ===================================================================== *)

Module Datetime.
Import PyStr.

Record datetime : Type := mkDatetime {
  year : N; month : N; day : N;
  hour : N; minute : N; second : N; microsecond : N
}.

(** [d.strftime('%Y%m%d_%H%M%S')]: the C library writes the year as it
    is and the other fields on two digits. *)
Definition strftime_stamp (d : datetime) : string :=
  str_int (year d) +:+ zfill 2 (month d) +:+ zfill 2 (day d) +:+ "_" +:+
  zfill 2 (hour d) +:+ zfill 2 (minute d) +:+ zfill 2 (second d).

(** [d.isoformat()]: the fraction is omitted when it is zero. *)
Definition isoformat (d : datetime) : string :=
  zfill 4 (year d) +:+ "-" +:+ zfill 2 (month d) +:+ "-" +:+ zfill 2 (day d) +:+ "T" +:+
  zfill 2 (hour d) +:+ ":" +:+ zfill 2 (minute d) +:+ ":" +:+ zfill 2 (second d) +:+
  (if N.eqb (microsecond d) 0 then "" else "." +:+ zfill 6 (microsecond d)).

End Datetime.

Import Pathlib.

(* ===================================================================== *)
(** * JSON values, exceptions, the file system *)
(* ===================================================================== *)

(** What [json.dump] is given.  The text it writes is a function of this
    value, so a file written by [json.dump] is modelled by the value. *)
Inductive json : Type :=
| JStr (s : string)
| JInt (z : Z)
| JList (items : list json)
| JObj (members : list (string * json)).

Fixpoint assoc {A : Type} (k : string) (l : list (string * A)) : option A :=
  match l with
  | [] => None
  | (k', v) :: rest => if String.eqb k k' then Some v else assoc k rest
  end.

(** [j[k]] on a JSON object. *)
Definition json_get (k : string) (j : json) : option json :=
  match j with
  | JObj members => assoc k members
  | _ => None
  end.

(** The object without its member [k]. *)
Definition json_without (k : string) (j : json) : json :=
  match j with
  | JObj members => JObj (List.filter (fun kv => negb (String.eqb (fst kv) k)) members)
  | _ => j
  end.

(** A raised Python exception: its class and [str(e)].  Every exception of
    the model is a subclass of [Exception]; [SystemExit] is not one and is
    an outcome of its own. *)
Record Exception : Type := mkExc { exc_class : string; exc_str : string }.

Definition is_ImportError (e : Exception) : bool :=
  String.eqb (exc_class e) "ImportError" || String.eqb (exc_class e) "ModuleNotFoundError".

Definition is_Exception (e : Exception) : bool := true.

(** Directories and files, by path string. *)
Record FileSystem : Type := mkFS {
  dirs : gset string;
  files : gmap string json
}.

(** The path string is an entry of the file system, as it is written. *)
Definition is_entry (fsys : FileSystem) (path : string) : bool :=
  bool_decide (path ∈ dirs fsys) || bool_decide (is_Some (files fsys !! path)).

(* ===================================================================== *)
(** * The outside world *)
(* ===================================================================== *)

(** The keyword arguments of one call of [mlx_lm.convert]; an argument
    the call does not pass is [None]. *)
Record ConvertArgs : Type := mkConvertArgs {
  ca_hf_path : string;
  ca_mlx_path : string;
  ca_quantize : bool;
  ca_q_bits : option Z;
  ca_q_group_size : option Z
}.

(** Calls into the external libraries, in the order they are made. *)
Inductive ExtCall : Type :=
| CallGetActiveMemory
| CallConvert (a : ConvertArgs)
| CallLoad (model_path : string)
| CallGenerate (model tokenizer : N) (prompt : string) (max_tokens : Z) (temp : Q).

(** Everything the script does not decide itself. *)
Record World : Type := mkWorld {
  (** the [n]-th reading of [datetime.now()] *)
  clock : nat -> Datetime.datetime;
  (** the raw material of the [n]-th call of [random.randint] *)
  random_raw : nat -> N;
  (** whether [import name] finds the module *)
  importable : string -> bool;
  (** [mx.get_active_memory()], in bytes *)
  mx_get_active_memory : Exception + N;
  (** what [os.stat] makes of a path string for [Path.exists()]: [True],
      [False], or an [OSError] that [exists()] lets through (a name that
      is too long, a directory that may not be searched); the operating
      system resolves the string, so that two strings may name one entry *)
  os_exists : FileSystem -> string -> Exception + bool;
  (** [mlx_lm.convert]: the file system it leaves, and the exception when
      it raised; what it wrote before raising stays *)
  mlx_convert : ConvertArgs -> FileSystem -> FileSystem * option Exception;
  (** [mlx_lm.utils.load]: raises, or returns a model and a tokenizer *)
  mlx_load : FileSystem -> string -> Exception + (N * N);
  (** [mlx_lm.generate] *)
  mlx_generate : N -> N -> string -> Z -> Q -> Exception + string;
  (** whether [open(path, 'w')] raises *)
  open_w_error : FileSystem -> string -> option Exception
}.

(** What argparse reports before it ends the process with status 2.  It
    writes its usage text and a message built from these to the standard
    error; the wording is its own. *)
Inductive parser_error : Type :=
| InvalidChoice (option value : string) (choices : list string)
| UnrecognizedArguments (words : list string).

Record State : Type := mkState {
  fs : FileSystem;
  clock_reads : nat;
  random_draws : nat;
  (** the lines printed *)
  stdout : list string;
  (** the errors of the argument parser *)
  stderr : list parser_error;
  ext_calls : list ExtCall
}.

(* ===================================================================== *)
(** * Computations: state, exceptions, [sys.exit], running loops *)
(* ===================================================================== *)

Inductive outcome (A : Type) : Type :=
| Ret (a : A) (s : State)            (** returned [a] *)
| Raise (e : Exception) (s : State)  (** an exception is propagating *)
| SysExit (code : Z) (s : State)     (** [SystemExit(code)] is propagating *)
| Spin.                              (** the loop is still running *)

Arguments Ret {A} a s.
Arguments Raise {A} e s.
Arguments SysExit {A} code s.
Arguments Spin {A}.

Definition M (A : Type) : Type := State -> outcome A.

Definition ret {A} (a : A) : M A := fun s => Ret a s.

Definition bind {A B} (m : M A) (k : A -> M B) : M B :=
  fun s =>
    match m s with
    | Ret a s' => k a s'
    | Raise e s' => Raise e s'
    | SysExit c s' => SysExit c s'
    | Spin => Spin
    end.

Declare Scope py_scope.
Delimit Scope py_scope with py.
Notation "x <- m ;; k" := (bind m (fun x => k))
  (at level 100, m at next level, right associativity) : py_scope.
Notation "m ;; k" := (bind m (fun _ => k))
  (at level 100, right associativity) : py_scope.
Open Scope py_scope.

Definition raise {A} (e : Exception) : M A := fun s => Raise e s.

(** [sys.exit(code)] *)
Definition sys_exit {A} (code : Z) : M A := fun s => SysExit code s.

(** [try: body  except <class> as e: handler e].  [SystemExit] is not
    caught, and an exception of another class propagates. *)
Definition try_except {A} (body : M A) (catches : Exception -> bool)
    (handler : Exception -> M A) : M A :=
  fun s =>
    match body s with
    | Raise e s' => if catches e then handler e s' else Raise e s'
    | r => r
    end.

(** [print(line)] *)
Definition print (line : string) : M unit :=
  fun s => Ret tt (mkState (fs s) (clock_reads s) (random_draws s)
                     (stdout s ++ [line]) (stderr s) (ext_calls s)).

(** [parser.error(...)], before it exits *)
Definition report (e : parser_error) : M unit :=
  fun s => Ret tt (mkState (fs s) (clock_reads s) (random_draws s)
                     (stdout s) (stderr s ++ [e]) (ext_calls s)).

Definition log_call (c : ExtCall) : M unit :=
  fun s => Ret tt (mkState (fs s) (clock_reads s) (random_draws s)
                     (stdout s) (stderr s) (ext_calls s ++ [c])).

Definition get_fs : M FileSystem := fun s => Ret (fs s) s.

Definition put_fs (fsys : FileSystem) : M unit :=
  fun s => Ret tt (mkState fsys (clock_reads s) (random_draws s)
                     (stdout s) (stderr s) (ext_calls s)).

(** The exit status of the process that runs [m] as its main program:
    0 after a normal return, the code of [sys.exit], 1 after an uncaught
    exception; no status while a loop is still running. *)
Definition exit_status {A} (r : outcome A) : option Z :=
  match r with
  | Ret _ _ => Some 0%Z
  | SysExit c _ => Some c
  | Raise _ _ => Some 1%Z
  | Spin => None
  end.

(** What a computation returned, if it returned. *)
Definition returned {A} (r : outcome A) : option A :=
  match r with
  | Ret a _ => Some a
  | _ => None
  end.

Definition final_state {A} (r : outcome A) : option State :=
  match r with
  | Ret _ s | SysExit _ s | Raise _ s => Some s
  | Spin => None
  end.

(* ===================================================================== *)
(** * The script *)
(* ===================================================================== *)

Import PyStr.

Record ModelConfig : Type := mkModelConfig { hf_path : string; description : string }.

(** The catalog, in the order the dictionary literal lists it. *)
Definition DEEPSEEK_MODELS : list (string * ModelConfig) :=
  [ ("deepseek-r1-8b",
     mkModelConfig "deepseek-ai/DeepSeek-R1-Distill-Llama-8B"
                   "DeepSeek R1 Distilled Llama 8B - optimized reasoning model");
    ("deepseek-r1-qwen-8b",
     mkModelConfig "deepseek-ai/DeepSeek-R1-Distill-Qwen2.5-7B"
                   "DeepSeek R1 Distilled Qwen 7B - lightweight reasoning model") ].

(** [list(DEEPSEEK_MODELS.keys())] *)
Definition catalog_ids : list string := map fst DEEPSEEK_MODELS.

(** [model_name in DEEPSEEK_MODELS] *)
Definition in_catalog (model_name : string) : bool :=
  match assoc model_name DEEPSEEK_MODELS with Some _ => true | None => false end.

(** The integer nearest to [a] among those with at most 53 significant
    bits, ties to the even one: the value of [a] in double precision. *)
Definition round53 (a : N) : N :=
  let bits := N.size a in
  if (bits <=? 53)%N then a
  else
    let shift := (bits - 53)%N in
    let q := N.shiftr a shift in
    let r := N.land a (N.ones shift) in
    let half := N.shiftl 1 (shift - 1) in
    let q' := if (half <? r)%N || ((r =? half)%N && N.odd q) then (q + 1)%N else q in
    N.shiftl q' shift.

(** [bytes / (1024**3)]: the quotient, correctly rounded to double
    precision.  The divisor is a power of two, so the float is
    [round53 bytes] over [2^30]; it is given by that numerator.  A
    quotient beyond the range of a double raises [OverflowError]. *)
Definition true_divide_gib (bytes : N) : Exception + N :=
  let numerator := round53 bytes in
  if (1054 <? N.size numerator)%N
  then inl (mkExc "OverflowError" "integer division result too large for a float")
  else inr numerator.

(** [f"{x:.1f}"] for the float [numerator / 2^30]: its exact value rounded
    to one decimal, ties to even. *)
Definition format_gib_1f (numerator : N) : string :=
  let gib := (1024 * 1024 * 1024)%N in
  let t := (numerator * 10)%N in
  let q := (t / gib)%N in
  let r := (t mod gib)%N in
  let up := (gib <? 2 * r)%N || ((2 * r =? gib)%N && N.odd q) in
  let q' := if up then (q + 1)%N else q in
  str_int (q' / 10) +:+ "." +:+ str_int (q' mod 10).

(** The literal of [test_prompt], with its line breaks and indentation. *)
Definition test_prompt : string :=
  nl +:+
  "        Analyze this content and provide structured information:" +:+ nl +:+
  "        " +:+ nl +:+
  "        " +:+ dquote +:+ "Just discovered an amazing coffee shop downtown. Great atmosphere, excellent wifi, perfect for working. The barista recommended their signature blend - definitely coming back!" +:+ dquote +:+ nl +:+
  "        " +:+ nl +:+
  "        Provide:" +:+ nl +:+
  "        - Category: " +:+ nl +:+
  "        - Tags: " +:+ nl +:+
  "        - Sentiment:" +:+ nl +:+
  "        ".

Definition recommended_devices : list string :=
  [ "iPhone 15 Pro"; "iPhone 15 Pro Max"; "iPad Air M1/M2"; "iPad Pro M1/M2" ].

(** The parsed command line: [args.model], [args.output],
    [args.quantization], [args.optimize_ios]. *)
Record Namespace : Type := mkNamespace {
  arg_model : string;
  arg_output : string;
  arg_quantization : string;
  arg_optimize_ios : bool
}.

(** One option occurrence on the command line. *)
Inductive cli_item : Type :=
| OptModel (value : string)          (** [--model value] *)
| OptOutput (value : string)         (** [--output value] *)
| OptQuantization (value : string)   (** [--quantization value] *)
| OptOptimizeIos                     (** [--optimize-ios] *)
| OptHelp                            (** [-h], [--help] *)
| Unrecognized (word : string).      (** anything else *)

(** The [default=] of each [add_argument]. *)
Definition default_namespace : Namespace :=
  mkNamespace "deepseek-r1-8b" "./models/deepseek-r1-8b-mlx" "q4" false.

Definition quantization_choices : list string := [ "q4"; "q8"; "none" ].

Definition parser_description : string :=
  "Convert DeepSeek-R1 models to MLX format for iOS".

(** The integer of the range from [lo] to [hi] picked from raw random
    material; every integer of the range is picked by some material. *)
Definition randint_of (lo hi raw : N) : N := (lo + raw mod (hi - lo + 1))%N.

Section Script.

Variable W : World.

(** ** Primitives that consult the world *)

(** [datetime.now()] *)
Definition datetime_now : M Datetime.datetime :=
  fun s => Ret (clock W (clock_reads s))
               (mkState (fs s) (S (clock_reads s)) (random_draws s)
                        (stdout s) (stderr s) (ext_calls s)).

(** [random.randint(lo, hi)], for [lo <= hi]: some integer of the range. *)
Definition randint (lo hi : N) : M N :=
  fun s => Ret (randint_of lo hi (random_raw W (random_draws s)))
               (mkState (fs s) (clock_reads s) (S (random_draws s))
                        (stdout s) (stderr s) (ext_calls s)).

(** The modules [import name] imports in turn: every package on the
    dotted way to [name], from the top. *)
Fixpoint dotted_prefixes (above : string) (parts : list string) : list string :=
  match parts with
  | [] => []
  | part :: rest =>
      let here := if String.eqb above "" then part else above +:+ "." +:+ part in
      here :: dotted_prefixes here rest
  end.

Fixpoint import_chain (names : list string) : M unit :=
  match names with
  | [] => ret tt
  | name :: rest =>
      if importable W name then import_chain rest
      else raise (mkExc "ModuleNotFoundError" ("No module named " +:+ repr name))
  end.

(** [import name] *)
Definition py_import (name : string) : M unit :=
  import_chain (dotted_prefixes "" (split "."%char name)).

(** [p.exists()] *)
Definition path_exists (p : Path) : M bool :=
  fun s =>
    match os_exists W (fs s) (str p) with
    | inl e => Raise e s
    | inr found => Ret found s
    end.

Definition call_get_active_memory : M N :=
  log_call CallGetActiveMemory ;;
  match mx_get_active_memory W with
  | inl e => raise e
  | inr bytes => ret bytes
  end.

(** [convert(...)] of [mlx_lm] *)
Definition call_convert (a : ConvertArgs) : M unit :=
  log_call (CallConvert a) ;;
  fsys <- get_fs ;;
  put_fs (fst (mlx_convert W a fsys)) ;;
  match snd (mlx_convert W a fsys) with
  | Some e => raise e
  | None => ret tt
  end.

(** [load(model_path)] of [mlx_lm.utils] *)
Definition call_load (model_path : string) : M (N * N) :=
  log_call (CallLoad model_path) ;;
  fsys <- get_fs ;;
  match mlx_load W fsys model_path with
  | inl e => raise e
  | inr mt => ret mt
  end.

(** [generate(model, tokenizer, prompt=..., max_tokens=..., temp=...)] *)
Definition call_generate (model tokenizer : N) (prompt : string)
    (max_tokens : Z) (temp : Q) : M string :=
  log_call (CallGenerate model tokenizer prompt max_tokens temp) ;;
  match mlx_generate W model tokenizer prompt max_tokens temp with
  | inl e => raise e
  | inr response => ret response
  end.

(** [with open(path, 'w') as f: json.dump(value, f, indent=2)]: the file
    is replaced by the new value, whatever it held. *)
Definition write_json (path : string) (value : json) : M unit :=
  fsys <- get_fs ;;
  match open_w_error W fsys path with
  | Some e => raise e
  | None => put_fs (mkFS (dirs fsys) (<[ path := value ]> (files fsys)))
  end.

(** ** [setup_environment] *)

Definition setup_environment : M unit :=
  print "Setting up MLX environment..." ;;
  try_except
    (py_import "mlx" ;;
     py_import "mlx_lm" ;;
     print "✅ MLX imported successfully" ;;
     print "✅ MLX-LM available")
    is_ImportError
    (fun e =>
       print ("❌ MLX not properly installed: " +:+ exc_str e) ;;
       print "Install with: pip install mlx-lm" ;;
       sys_exit 1) ;;
  try_except
    (bytes <- call_get_active_memory ;;
     available_memory <- match true_divide_gib bytes with
                         | inl e => raise e
                         | inr numerator => ret numerator
                         end ;;
     print ("📊 Available GPU memory: " +:+ format_gib_1f available_memory +:+ " GB") ;;
     if (available_memory <? 8 * (1024 * 1024 * 1024))%N
     then print "⚠️  Warning: Less than 8GB GPU memory available. Consider using smaller model."
     else ret tt)
    is_Exception
    (fun e => print ("⚠️  Could not check GPU memory: " +:+ exc_str e)).

(** ** [test_model] *)

Definition test_model (model_path : string) : M unit :=
  try_except
    (print "Loading model for testing..." ;;
     mt <- call_load model_path ;;
     print "🔄 Generating test response..." ;;
     response <- call_generate (fst mt) (snd mt) test_prompt 200 (3 # 10)%Q ;;
     print "📝 Test output:" ;;
     print (PyStr.repeat "-" 50) ;;
     print response ;;
     print (PyStr.repeat "-" 50) ;;
     print "✅ Model test successful!")
    is_Exception
    (fun e => print ("⚠️  Model test failed: " +:+ exc_str e)).

(** ** [generate_model_info] *)

(** The [info] dictionary, given the clock reading and the catalog entry. *)
Definition model_info (model_path model_name quantization : string)
    (converted_at : Datetime.datetime) (config : ModelConfig) : json :=
  JObj [ ("model_name", JStr model_name);
         ("model_path", JStr model_path);
         ("quantization", JStr quantization);
         ("framework", JStr "MLX");
         ("target_platform", JStr "iOS");
         ("converted_at", JStr (Datetime.isoformat converted_at));
         ("description", JStr (description config));
         ("usage",
          JObj [ ("min_ios_version", JStr "16.0");
                 ("min_memory_gb",
                  JInt (if String.eqb quantization "q4" then 8 else 12)%Z);
                 ("recommended_devices", JList (map JStr recommended_devices)) ]) ].

(** [Path(model_path) / "model_info.json"] *)
Definition info_path_of (model_path : string) : Path :=
  truediv (parse model_path) "model_info.json".

Definition generate_model_info (model_path model_name quantization : string) : M unit :=
  converted_at <- datetime_now ;;
  config <- match assoc model_name DEEPSEEK_MODELS with
            | Some config => ret config
            | None => raise (mkExc "KeyError" (repr model_name))
            end ;;
  let info := model_info model_path model_name quantization converted_at config in
  let info_path := info_path_of model_path in
  write_json (str info_path) info ;;
  print ("📋 Model info saved to: " +:+ str info_path).

(** ** [convert_model_to_mlx] *)

(** The f-string of [temp_suffix]: clock first, then the random number. *)
Definition fresh_suffix : M string :=
  now <- datetime_now ;;
  r <- randint 1000 9999 ;;
  ret (Datetime.strftime_stamp now +:+ "_" +:+ str_int r).

(** [base_output_path.parent / f"{base_output_path.name}_{temp_suffix}"] *)
Definition candidate (base_output_path : Path) (temp_suffix : string) : Path :=
  truediv (parent base_output_path) (name base_output_path +:+ "_" +:+ temp_suffix).

(** [while output_path.exists(): ...].  The source has no bound on the
    number of rounds; [fuel] bounds how many tests of the condition the
    model follows, and [Spin] says the loop was still running then.  A
    test that raises ends the loop with its exception. *)
Fixpoint retry_until_unused (fuel : nat) (base_output_path output_path : Path)
    : M Path :=
  match fuel with
  | O => fun _ => Spin
  | S fuel' =>
      taken <- path_exists output_path ;;
      if taken : bool then
        temp_suffix <- fresh_suffix ;;
        retry_until_unused fuel' base_output_path (candidate base_output_path temp_suffix)
      else ret output_path
  end.

(** Lines 77 to 84: the output path allocator. *)
Definition allocate_output_path (fuel : nat) (output_dir : string) : M Path :=
  temp_suffix <- fresh_suffix ;;
  let base_output_path := parse output_dir in
  let output_path := candidate base_output_path temp_suffix in
  retry_until_unused fuel base_output_path output_path.

Definition convert_model_to_mlx (fuel : nat)
    (model_name output_dir quantization : string) : M bool :=
  match assoc model_name DEEPSEEK_MODELS with
  | None =>
      print ("❌ Unknown model: " +:+ model_name) ;;
      print ("Available models: " +:+ repr_list catalog_ids) ;;
      ret false
  | Some config =>
      print ("🔄 Converting " +:+ description config) ;;
      print ("📥 Source: " +:+ hf_path config) ;;
      print ("📤 Output: " +:+ output_dir) ;;
      print ("🔢 Quantization: " +:+ quantization) ;;
      try_except
        (output_path <- allocate_output_path fuel output_dir ;;
         print ("📤 Actual output: " +:+ str output_path) ;;
         print "⚙️  Starting conversion..." ;;
         (if String.eqb quantization "q4" then
            call_convert (mkConvertArgs (hf_path config) (str output_path)
                            true (Some 4%Z) (Some 64%Z))
          else if String.eqb quantization "q8" then
            call_convert (mkConvertArgs (hf_path config) (str output_path)
                            true (Some 8%Z) (Some 64%Z))
          else
            call_convert (mkConvertArgs (hf_path config) (str output_path)
                            false None None)) ;;
         print "✅ Model conversion completed!" ;;
         print "🧪 Testing converted model..." ;;
         test_model (str output_path) ;;
         generate_model_info (str output_path) model_name quantization ;;
         ret true)
        is_Exception
        (fun e =>
           print ("❌ Conversion failed: " +:+ exc_str e) ;;
           ret false)
  end.

(** ** [optimize_for_ios] *)

Definition optimize_for_ios (model_path : string) : M unit :=
  print "🍎 Applying iOS optimizations..." ;;
  try_except
    (call_load model_path ;;
     print "✅ iOS optimizations applied")
    is_Exception
    (fun e => print ("⚠️  iOS optimization failed: " +:+ exc_str e)).

(** ** [main] *)

(** [parser.parse_args()].  The command line is given as the sequence of
    option occurrences argparse recognises in it; how argparse splits
    the raw words into them is its own business.  Occurrences are
    processed from left to right: a value outside the [choices] of its
    option is an error at once (exit status 2), [-h] prints the help (of
    which the description of the parser is kept here) and exits with
    status 0, words that are no option of the parser are reported once
    everything else is consumed (exit status 2). *)
Fixpoint parse_items (items : list cli_item) (ns : Namespace)
    (extras : list string) : M Namespace :=
  match items with
  | [] =>
      match extras with
      | [] => ret ns
      | _ =>
          report (UnrecognizedArguments extras) ;;
          sys_exit 2
      end
  | OptHelp :: _ =>
      print parser_description ;;
      sys_exit 0
  | OptModel v :: rest =>
      if existsb (String.eqb v) catalog_ids then
        parse_items rest (mkNamespace v (arg_output ns) (arg_quantization ns)
                            (arg_optimize_ios ns)) extras
      else
        report (InvalidChoice "--model" v catalog_ids) ;;
        sys_exit 2
  | OptOutput v :: rest =>
      parse_items rest (mkNamespace (arg_model ns) v (arg_quantization ns)
                          (arg_optimize_ios ns)) extras
  | OptQuantization v :: rest =>
      if existsb (String.eqb v) quantization_choices then
        parse_items rest (mkNamespace (arg_model ns) (arg_output ns) v
                            (arg_optimize_ios ns)) extras
      else
        report (InvalidChoice "--quantization" v quantization_choices) ;;
        sys_exit 2
  | OptOptimizeIos :: rest =>
      parse_items rest (mkNamespace (arg_model ns) (arg_output ns)
                          (arg_quantization ns) true) extras
  | Unrecognized word :: rest =>
      parse_items rest ns (extras ++ [word])
  end.

Definition parse_args (argv : list cli_item) : M Namespace :=
  parse_items argv default_namespace [].

Definition main (fuel : nat) (argv : list cli_item) : M unit :=
  args <- parse_args argv ;;
  print "🚀 DeepSeek-R1 to MLX Converter" ;;
  print (PyStr.repeat "=" 50) ;;
  setup_environment ;;
  success <- convert_model_to_mlx fuel (arg_model args) (arg_output args)
               (arg_quantization args) ;;
  (if success && arg_optimize_ios args
   then optimize_for_ios (arg_output args)
   else ret tt) ;;
  if success : bool then
    print (nl +:+ "🎉 Conversion completed successfully!") ;;
    print ("📱 Model ready for iOS deployment: " +:+ arg_output args) ;;
    print (nl +:+ "Next steps:") ;;
    print "1. Copy model files to iOS app bundle" ;;
    print "2. Update MLXManager.swift with model path" ;;
    print "3. Test on device with 8GB+ RAM"
  else
    print (nl +:+ "❌ Conversion failed!") ;;
    sys_exit 1.

(** The file run as a program: the imports at its top (lines 12 to 15;
    the modules of the standard library are always found), then
    [main()]. *)
Definition script (fuel : nat) (argv : list cli_item) : M unit :=
  py_import "mlx.core" ;;
  py_import "mlx_lm" ;;
  py_import "mlx_lm.utils" ;;
  py_import "numpy" ;;
  main fuel argv.

End Script.

(** The state a process starts in. *)
Definition initial_state (fsys : FileSystem) : State :=
  mkState fsys 0 0 [] [] [].

(* ===================================================================== *)
(** * Vocabulary of the statements *)
(* ===================================================================== *)

(** [n] more clock readings and random draws, nothing else. *)
Definition advance (n : nat) (s : State) : State :=
  mkState (fs s) (n + clock_reads s) (n + random_draws s)
          (stdout s) (stderr s) (ext_calls s).

Section Draws.

Variable W : World.

(** The suffix made of the [c]-th clock reading and the [r]-th random
    draw. *)
Definition drawn_suffix (c r : nat) : string :=
  Datetime.strftime_stamp (clock W c) +:+ "_" +:+
  str_int (randint_of 1000 9999 (random_raw W r)).

(** The [i]-th candidate path the allocator draws when it starts in
    state [s]: the first draw is number 0, the redraws of the loop follow. *)
Definition candidate_at (s : State) (output_dir : string) (i : nat) : Path :=
  candidate (parse output_dir)
            (drawn_suffix (i + clock_reads s) (i + random_draws s)).

(** What the existence test makes of the [i]-th candidate. *)
Definition exists_test (s : State) (output_dir : string) (i : nat)
    : Exception + bool :=
  os_exists W (fs s) (str (candidate_at s output_dir i)).

(** Candidate [k] is the first one that does not exist: the tests of the
    candidates before it return [True], its own returns [False]. *)
Definition first_unused (s : State) (output_dir : string) (k : nat) : Prop :=
  (forall i, i < k -> exists_test s output_dir i = inr true) /\
  exists_test s output_dir k = inr false.

(** The test of candidate [k] is the first one that raises, and the
    candidates before it exist. *)
Definition first_raising (s : State) (output_dir : string) (k : nat)
    (e : Exception) : Prop :=
  (forall i, i < k -> exists_test s output_dir i = inr true) /\
  exists_test s output_dir k = inl e.

(** The outcome of the loop at the candidate that ends it. *)
Definition stop_at (s : State) (output_dir : string) (k : nat)
    (test : Exception + bool) : outcome Path :=
  match test with
  | inl e => Raise e (advance (S k) s)
  | inr _ => Ret (candidate_at s output_dir k) (advance (S k) s)
  end.

(** The calls the smoke test makes on a converted artifact. *)
Definition smoke_calls (fsys : FileSystem) (model_path : string) : list ExtCall :=
  match mlx_load W fsys model_path with
  | inl _ => [CallLoad model_path]
  | inr mt => [CallLoad model_path;
               CallGenerate (fst mt) (snd mt) test_prompt 200 (3 # 10)%Q]
  end.

(** The exception the smoke test runs into, if any. *)
Definition smoke_exception (fsys : FileSystem) (model_path : string)
    : option Exception :=
  match mlx_load W fsys model_path with
  | inl e => Some e
  | inr mt =>
      match mlx_generate W (fst mt) (snd mt) test_prompt 200 (3 # 10)%Q with
      | inl e => Some e
      | inr _ => None
      end
  end.

(** The path string of the manifest of an artifact. *)
Definition manifest_path (model_path : string) : string :=
  str (info_path_of model_path).

(** The arguments the driver calls the converter with. *)
Definition convert_call (config : ModelConfig) (output_path : Path)
    (quantization : string) : ConvertArgs :=
  if String.eqb quantization "q4" then
    mkConvertArgs (hf_path config) (str output_path) true (Some 4%Z) (Some 64%Z)
  else if String.eqb quantization "q8" then
    mkConvertArgs (hf_path config) (str output_path) true (Some 8%Z) (Some 64%Z)
  else
    mkConvertArgs (hf_path config) (str output_path) false None None.

(** The converter returned and the manifest could be opened. *)
Definition conversion_ok (fsys : FileSystem) (config : ModelConfig)
    (output_path : Path) (quantization : string) : bool :=
  match mlx_convert W (convert_call config output_path quantization) fsys with
  | (_, Some _) => false
  | (fsys', None) =>
      match open_w_error W fsys' (manifest_path (str output_path)) with
      | Some _ => false
      | None => true
      end
  end.

(** The calls the driver makes on a catalog id once it has its path. *)
Definition driver_calls (fsys : FileSystem) (config : ModelConfig)
    (output_path : Path) (quantization : string) : list ExtCall :=
  let a := convert_call config output_path quantization in
  match mlx_convert W a fsys with
  | (_, Some _) => [CallConvert a]
  | (fsys', None) => CallConvert a :: smoke_calls fsys' (str output_path)
  end.

(** Every module the file imports at its head can be imported, with the
    packages above it. *)
Definition header_importable : bool :=
  forallb (importable W) [ "mlx"; "mlx.core"; "mlx_lm"; "mlx_lm.utils"; "numpy" ].

End Draws.

(** The world with another loader and another generator. *)
Definition with_loader (W : World)
    (load : FileSystem -> string -> Exception + (N * N))
    (generate : N -> N -> string -> Z -> Q -> Exception + string) : World :=
  mkWorld (clock W) (random_raw W) (importable W) (mx_get_active_memory W)
          (os_exists W) (mlx_convert W) load generate (open_w_error W).

(** Only the console and the log of external calls may differ. *)
Definition same_resources (s s' : State) : Prop :=
  fs s' = fs s /\ clock_reads s' = clock_reads s /\
  random_draws s' = random_draws s /\ stderr s' = stderr s.


(** A command-line occurrence the parser lets through. *)
Definition acceptable (item : cli_item) : bool :=
  match item with
  | OptModel v => in_catalog v
  | OptQuantization v => existsb (String.eqb v) quantization_choices
  | OptOutput _ | OptOptimizeIos => true
  | OptHelp | Unrecognized _ => false
  end.

(** The namespace once an occurrence has been stored in it. *)
Definition store (ns : Namespace) (item : cli_item) : Namespace :=
  match item with
  | OptModel v =>
      mkNamespace v (arg_output ns) (arg_quantization ns) (arg_optimize_ios ns)
  | OptOutput v =>
      mkNamespace (arg_model ns) v (arg_quantization ns) (arg_optimize_ios ns)
  | OptQuantization v =>
      mkNamespace (arg_model ns) (arg_output ns) v (arg_optimize_ios ns)
  | OptOptimizeIos =>
      mkNamespace (arg_model ns) (arg_output ns) (arg_quantization ns) true
  | OptHelp | Unrecognized _ => ns
  end.

(** The occurrence is the flag [--optimize-ios]. *)
Definition is_flag (item : cli_item) : bool :=
  match item with OptOptimizeIos => true | _ => false end.

(** Only the two consoles may differ. *)
Definition quiet (s s' : State) : Prop :=
  fs s' = fs s /\ clock_reads s' = clock_reads s /\
  random_draws s' = random_draws s /\ ext_calls s' = ext_calls s.

(** A date and time of the calendar, with a year of four digits. *)
Definition calendar (d : Datetime.datetime) : Prop :=
  (1000 <= Datetime.year d <= 9999 /\
   1 <= Datetime.month d <= 12 /\ 1 <= Datetime.day d <= 31 /\
   Datetime.hour d <= 23 /\ Datetime.minute d <= 59 /\
   Datetime.second d <= 59)%N.

(** The line of [setup_environment] for too little memory. *)
Definition low_memory_warning : string :=
  "⚠️  Warning: Less than 8GB GPU memory available. Consider using smaller model.".


(* ===================================================================== *)
(** * Sample worlds *)
(* ===================================================================== *)

Module Sample.

(** A clock that advances by one second per reading. *)
Definition ticking_clock (n : nat) : Datetime.datetime :=
  Datetime.mkDatetime 2024 1 5 9 3 (7 + N.of_nat n) 0.


(** An existence test that takes the path string as it is written, and
    refuses a name of more than 255 characters. *)
Definition stat (fsys : FileSystem) (path : string) : Exception + bool :=
  if existsb (fun part => Nat.ltb 255 (String.length part)) (split "/"%char path)
  then inl (mkExc "OSError" ("[Errno 36] File name too long: " +:+ repr path))
  else inr (is_entry fsys path).

(** A converter that creates the output directory and one file in it. *)
Definition convert_ok (a : ConvertArgs) (fsys : FileSystem)
    : FileSystem * option Exception :=
  (mkFS ({[ ca_mlx_path a ]} ∪ dirs fsys)
        (<[ ca_mlx_path a +:+ "/model.safetensors" := JStr (ca_hf_path a) ]>
           (files fsys)),
   None).

(** A loader that finds a model in an existing directory only. *)
Definition load_dir (fsys : FileSystem) (p : string) : Exception + (N * N) :=
  if bool_decide (p ∈ dirs fsys) then inr (1%N, 2%N)
  else inl (mkExc "FileNotFoundError" ("No such directory: " +:+ p)).

Definition generate_ok (model tokenizer : N) (prompt : string)
    (max_tokens : Z) (temp : Q) : Exception + string :=
  inr "Category: Food".

(** A file can be opened for writing when its directory exists. *)
Definition open_in_dir (fsys : FileSystem) (p : string) : option Exception :=
  if bool_decide (str (parent (parse p)) ∈ dirs fsys) then None
  else Some (mkExc "FileNotFoundError"
               ("[Errno 2] No such file or directory: " +:+ repr p)).


Definition sixteen_gib : N := (16 * 1024 * 1024 * 1024)%N.

(** Everything works. *)
Definition world : World :=
  mkWorld ticking_clock (fun n => (234 + N.of_nat n)%N) (fun _ => true)
          (inr sixteen_gib) stat convert_ok load_dir generate_ok open_in_dir.




Definition models_dir : FileSystem := mkFS {[ "models" ]} ∅.



(** The output directory of an earlier conversion. *)
Definition converted : FileSystem :=
  mkFS {[ "models"; "models/x_20240105_090307_1234" ]} ∅.

(** A loader and a generator that fail. *)
Definition load_fails (fsys : FileSystem) (p : string) : Exception + (N * N) :=
  inl (mkExc "ValueError" "Model type not supported.").

Definition generate_fails (model tokenizer : N) (prompt : string)
    (max_tokens : Z) (temp : Q) : Exception + string :=
  inl (mkExc "RuntimeError" "out of memory").

(** The directory of the only candidate of [stuck_world] for the base
    [models/x] exists already. *)
Definition taken : FileSystem :=
  mkFS {[ "models"; "models/x_20240105_090307_1000" ]} ∅.



(** Four gibibytes of memory only. *)
Definition small_world : World :=
  mkWorld ticking_clock (fun n => (234 + N.of_nat n)%N) (fun _ => true)
          (inr (4 * 1024 * 1024 * 1024)%N) stat convert_ok load_dir generate_ok open_in_dir.

(** A reading above [2^53] bytes. *)
Definition vast_world : World :=
  mkWorld ticking_clock (fun n => (234 + N.of_nat n)%N) (fun _ => true)
          (inr 7621131836389221990%N) stat convert_ok load_dir generate_ok open_in_dir.

(** The memory cannot be queried. *)
Definition blind_world : World :=
  mkWorld ticking_clock (fun n => (234 + N.of_nat n)%N) (fun _ => true)
          (inl (mkExc "RuntimeError" "Metal device not found"))
          stat convert_ok load_dir generate_ok open_in_dir.

End Sample.

(* ===================================================================== *)
(** * Facts about paths *)
(* ===================================================================== *)

Module PathFacts.






















Lemma append_cons a (x y : string) : String a x +:+ y = String a (x +:+ y).
Proof. reflexivity. Qed.

Lemma length_append (x y : string) :
  String.length (x +:+ y) = String.length x + String.length y.
Proof.
  induction x as [|a x IH]; [reflexivity|].
  rewrite append_cons. simpl. now rewrite IH.
Qed.

Lemma append_assoc (x y z : string) : (x +:+ y) +:+ z = x +:+ (y +:+ z).
Proof.
  induction x as [|a x IH]; [reflexivity|].
  rewrite !append_cons. now rewrite IH.
Qed.







End PathFacts.

(* ===================================================================== *)
(** * Facts about the suffix *)
(* ===================================================================== *)

Module SuffixFacts.
Import PathFacts.

Lemma uint_digits d : all_digits (NilEmpty.string_of_uint d) = true.
Proof. induction d; simpl; auto. Qed.

Lemma str_int_digits n : all_digits (str_int n) = true.
Proof. apply uint_digits. Qed.

Lemma all_digits_app x y :
  all_digits (x +:+ y) = all_digits x && all_digits y.
Proof.
  induction x as [|a x IH]; [reflexivity|].
  rewrite append_cons. simpl. now rewrite IH, andb_assoc.
Qed.

Lemma zeros_digits n : all_digits (PyStr.repeat "0" n) = true.
Proof. induction n as [|n IH]; [reflexivity | exact IH]. Qed.

Lemma zfill_digits w n : all_digits (zfill w n) = true.
Proof. unfold zfill. now rewrite all_digits_app, zeros_digits, str_int_digits. Qed.




Lemma randint_range raw :
  (1000 <= randint_of 1000 9999 raw <= 9999)%N.
Proof.
  unfold randint_of. change (9999 - 1000 + 1)%N with 9000%N.
  pose proof (N.mod_lt raw 9000) as H.
  generalize dependent (raw mod 9000)%N. intros m H.
  assert (m < 9000)%N by (apply H; discriminate). lia.
Qed.

(** The decimal numerals of the integers from 1000 to 9999 have four
    digits: checked on each of them. *)
Lemma four_digits_upto :
  forallb (fun i => Nat.eqb (String.length (str_int (1000 + N.of_nat i))) 4)
          (seq 0 (N.to_nat 9000)) = true.
Proof. vm_compute. reflexivity. Qed.

Lemma four_digits n :
  (1000 <= n <= 9999)%N -> String.length (str_int n) = 4.
Proof.
  intros Hn. pose proof four_digits_upto as H.
  rewrite forallb_forall in H.
  specialize (H (N.to_nat (n - 1000))).
  rewrite N2Nat.id in H.
  replace (1000 + (n - 1000))%N with n in H by lia.
  apply Nat.eqb_eq, H, in_seq. lia.
Qed.

Lemma randint_four_digits raw :
  let digits := str_int (randint_of 1000 9999 raw) in
  String.length digits = 4 /\ all_digits digits = true.
Proof. split; [apply four_digits, randint_range | apply str_int_digits]. Qed.

End SuffixFacts.

(* ===================================================================== *)
(** * The output path allocator *)
(* ===================================================================== *)

Section Allocator.

Variable W : World.

Lemma fresh_suffix_run s :
  fresh_suffix W s =
  Ret (drawn_suffix W (clock_reads s) (random_draws s)) (advance 1 s).
Proof. reflexivity. Qed.

(** One round of the loop on an existing candidate: redraw, go on. *)
Lemma retry_taken fuel base output_path s :
  os_exists W (fs s) (str output_path) = inr true ->
  retry_until_unused W (S fuel) base output_path s =
  retry_until_unused W fuel base
    (candidate base (drawn_suffix W (clock_reads s) (random_draws s)))
    (advance 1 s).
Proof.
  intros H. cbn [retry_until_unused]. unfold bind at 1, path_exists at 1.
  rewrite H. unfold bind. now rewrite fresh_suffix_run.
Qed.

(** The test of the loop on an unused candidate ends the loop. *)
Lemma retry_unused fuel base output_path s :
  os_exists W (fs s) (str output_path) = inr false ->
  retry_until_unused W (S fuel) base output_path s = Ret output_path s.
Proof.
  intros H. cbn [retry_until_unused]. unfold bind, path_exists. now rewrite H.
Qed.

(** A test that raises ends the loop with its exception. *)
Lemma retry_raises fuel base output_path s e :
  os_exists W (fs s) (str output_path) = inl e ->
  retry_until_unused W (S fuel) base output_path s = Raise e s.
Proof.
  intros H. cbn [retry_until_unused]. unfold bind, path_exists. now rewrite H.
Qed.

Lemma advance_advance n m s : advance n (advance m s) = advance (n + m) s.
Proof. unfold advance. simpl. f_equal; lia. Qed.

(** From candidate [i] on: when the [k] candidates from [i] exist and the
    test of candidate [i + k] does not return [True], the loop ends
    there after [k] redraws. *)
Lemma retry_run output_dir s k :
  forall fuel i,
    (forall j, i <= j < i + k -> exists_test W s output_dir j = inr true) ->
    exists_test W s output_dir (i + k) <> inr true ->
    k < fuel ->
    retry_until_unused W fuel (parse output_dir)
      (candidate_at W s output_dir i) (advance (S i) s) =
    stop_at W s output_dir (i + k) (exists_test W s output_dir (i + k)).
Proof.
  induction k as [|k IH]; intros fuel i Htaken Hstop Hfuel;
    (destruct fuel as [|fuel]; [lia|]).
  - rewrite Nat.add_0_r in *. unfold stop_at.
    destruct (exists_test W s output_dir i) as [e | [|]] eqn:E;
      [now apply retry_raises | congruence | now apply retry_unused].
  - rewrite retry_taken by (apply Htaken; lia).
    rewrite advance_advance. change (1 + S i) with (S (S i)).
    replace (i + S k) with (S i + k) in * by lia.
    apply (IH fuel (S i)); [intros j Hj; apply Htaken; lia | exact Hstop | lia].
Qed.

(** The allocator returns the first unused candidate, and changes
    nothing but the number of clock readings and random draws. *)
Lemma allocate_run output_dir s k fuel :
  first_unused W s output_dir k -> k < fuel ->
  allocate_output_path W fuel output_dir s =
  Ret (candidate_at W s output_dir k) (advance (S k) s).
Proof.
  intros [Htaken Hfree] Hfuel. unfold allocate_output_path, bind.
  rewrite fresh_suffix_run.
  etransitivity;
    [apply (retry_run output_dir s k fuel 0);
     [intros j Hj; apply Htaken; lia | cbn [Nat.add]; congruence | exact Hfuel]|].
  cbn [Nat.add]. now rewrite Hfree.
Qed.

(** The allocator raises what the first raising test raises. *)
Lemma allocate_raise output_dir s k e fuel :
  first_raising W s output_dir k e -> k < fuel ->
  allocate_output_path W fuel output_dir s = Raise e (advance (S k) s).
Proof.
  intros [Htaken Hraise] Hfuel. unfold allocate_output_path, bind.
  rewrite fresh_suffix_run.
  etransitivity;
    [apply (retry_run output_dir s k fuel 0);
     [intros j Hj; apply Htaken; lia | cbn [Nat.add]; congruence | exact Hfuel]|].
  cbn [Nat.add]. now rewrite Hraise.
Qed.

(** As long as the candidates exist the loop is running. *)
Lemma retry_spin output_dir s :
  forall fuel i,
    (forall j, i <= j < i + fuel -> exists_test W s output_dir j = inr true) ->
    retry_until_unused W fuel (parse output_dir)
      (candidate_at W s output_dir i) (advance (S i) s) = Spin.
Proof.
  induction fuel as [|fuel IH]; intros i Htaken; [reflexivity|].
  rewrite retry_taken by (apply Htaken; lia).
  rewrite advance_advance. change (1 + S i) with (S (S i)).
  apply (IH (S i)). intros j Hj. apply Htaken. lia.
Qed.

Lemma allocate_spin output_dir s fuel :
  (forall j, j < fuel -> exists_test W s output_dir j = inr true) ->
  allocate_output_path W fuel output_dir s = Spin.
Proof.
  intros Htaken. unfold allocate_output_path, bind. rewrite fresh_suffix_run.
  apply (retry_spin output_dir s fuel 0). intros j Hj. apply Htaken. lia.
Qed.

(** Among the first [n] candidates, either one is the first unused one,
    or the test of one is the first to raise, or all exist. *)
Lemma first_stop_below s output_dir n :
  (exists k, k < n /\ first_unused W s output_dir k) \/
  (exists k e, k < n /\ first_raising W s output_dir k e) \/
  (forall j, j < n -> exists_test W s output_dir j = inr true).
Proof.
  induction n as [|n [(k & Hk & Hfirst) | [(k & e & Hk & Hfirst) | Hall]]].
  - right. right. intros j Hj. lia.
  - left. exists k. split; [lia | exact Hfirst].
  - right. left. exists k, e. split; [lia | exact Hfirst].
  - destruct (exists_test W s output_dir n) as [e | [|]] eqn:E.
    + right. left. exists n, e. split; [lia|]. split; [exact Hall | exact E].
    + right. right. intros j Hj. destruct (Nat.eq_dec j n) as [-> | Hne];
        [exact E | apply Hall; lia].
    + left. exists n. split; [lia|]. split; [exact Hall | exact E].
Qed.

(** Whatever the fuel, the allocator returns the first unused candidate,
    or raises what the first raising test raised, or is still in its
    loop. *)
Lemma allocate_cases output_dir s fuel :
  (exists k, k < fuel /\ first_unused W s output_dir k /\
             allocate_output_path W fuel output_dir s =
             Ret (candidate_at W s output_dir k) (advance (S k) s)) \/
  (exists k e, k < fuel /\ first_raising W s output_dir k e /\
               allocate_output_path W fuel output_dir s =
               Raise e (advance (S k) s)) \/
  ((forall j, j < fuel -> exists_test W s output_dir j = inr true) /\
   allocate_output_path W fuel output_dir s = Spin).
Proof.
  destruct (first_stop_below s output_dir fuel)
    as [(k & Hk & Hfirst) | [(k & e & Hk & Hfirst) | Hall]].
  - left. exists k. repeat split; try assumption; try apply Hfirst.
    now apply allocate_run.
  - right. left. exists k, e. repeat split; try assumption; try apply Hfirst.
    now apply allocate_raise.
  - right. right. split; [exact Hall | now apply allocate_spin].
Qed.

End Allocator.

(* ===================================================================== *)
(** * Runs of the stages *)
(* ===================================================================== *)

(** Projections of a state that the evaluation below leaves unfolded are
    folded back. *)
Ltac refold_state :=
  repeat match goal with
    | |- context [match ?x with mkState a _ _ _ _ _ => a end] =>
        change (match x with mkState a _ _ _ _ _ => a end) with (fs x)
    | |- context [match ?x with mkState _ a _ _ _ _ => a end] =>
        change (match x with mkState _ a _ _ _ _ => a end) with (clock_reads x)
    | |- context [match ?x with mkState _ _ a _ _ _ => a end] =>
        change (match x with mkState _ _ a _ _ _ => a end) with (random_draws x)
    | |- context [match ?x with mkState _ _ _ a _ _ => a end] =>
        change (match x with mkState _ _ _ a _ _ => a end) with (stdout x)
    | |- context [match ?x with mkState _ _ _ _ a _ => a end] =>
        change (match x with mkState _ _ _ _ a _ => a end) with (stderr x)
    | |- context [match ?x with mkState _ _ _ _ _ a => a end] =>
        change (match x with mkState _ _ _ _ _ a => a end) with (ext_calls x)
    end.

(** One pass of evaluation of the monad: the primitives are unfolded and
    the states they build are projected on the way, so that the term
    stays small. *)
Ltac run :=
  cbv beta iota delta
    [bind ret raise print report log_call get_fs put_fs try_except sys_exit
     is_Exception advance fs clock_reads random_draws stdout stderr ext_calls];
  refold_state.

Lemma last_snoc {A} (l : list A) (x d : A) : List.last (l ++ [x]) d = x.
Proof. apply last_last. Qed.

Section Stages.

Variable W : World.

(** The smoke test always returns: it makes one call of the loader and,
    when the loader returned, one call of the generator, and whatever
    was raised ends as a warning on the console. *)
Lemma test_model_run model_path s :
  exists s' lines,
    test_model W model_path s = Ret tt s' /\
    same_resources s s' /\
    ext_calls s' = (ext_calls s ++ smoke_calls W (fs s) model_path)%list /\
    stdout s' = (stdout s ++ lines)%list /\
    List.last lines "" =
      match smoke_exception W (fs s) model_path with
      | Some e => "⚠️  Model test failed: " +:+ exc_str e
      | None => "✅ Model test successful!"
      end.
Proof.
  unfold test_model, call_load, call_generate, smoke_calls, smoke_exception.
  run.
  destruct (mlx_load W (fs s) model_path) as [e | mt]; run.
  - eexists _, [_; _]. repeat split; try reflexivity.
    cbn [stdout]. now rewrite <- app_assoc.
  - destruct (mlx_generate W (fst mt) (snd mt) test_prompt 200 (3 # 10)%Q)
      as [e | response]; run.
    + eexists _, [_; _; _]. repeat split; try reflexivity;
        cbn [stdout ext_calls]; now rewrite <- !app_assoc.
    + eexists _, [_; _; _; _; _; _; _]. repeat split; try reflexivity;
        cbn [stdout ext_calls]; now rewrite <- !app_assoc.
Qed.

(** The manifest writer, when the file can be opened: one clock
    reading, and the file holds the new manifest. *)
Lemma generate_model_info_written model_path model_name quantization config s :
  assoc model_name DEEPSEEK_MODELS = Some config ->
  open_w_error W (fs s) (manifest_path model_path) = None ->
  exists s',
    generate_model_info W model_path model_name quantization s = Ret tt s' /\
    fs s' = mkFS (dirs (fs s))
              (<[ manifest_path model_path :=
                    model_info model_path model_name quantization
                      (clock W (clock_reads s)) config ]> (files (fs s))) /\
    clock_reads s' = S (clock_reads s) /\
    random_draws s' = random_draws s /\
    stderr s' = stderr s /\
    ext_calls s' = ext_calls s.
Proof.
  intros Hcat Hopen. unfold generate_model_info, write_json, datetime_now.
  rewrite Hcat. run. fold (manifest_path model_path). rewrite Hopen.
  eexists. repeat split.
Qed.

(** The manifest writer, when the file cannot be opened: the exception
    propagates and nothing is written. *)
Lemma generate_model_info_refused model_path model_name quantization config e s :
  assoc model_name DEEPSEEK_MODELS = Some config ->
  open_w_error W (fs s) (manifest_path model_path) = Some e ->
  generate_model_info W model_path model_name quantization s =
  Raise e (mkState (fs s) (S (clock_reads s)) (random_draws s)
             (stdout s) (stderr s) (ext_calls s)).
Proof.
  intros Hcat Hopen. unfold generate_model_info, write_json, datetime_now.
  rewrite Hcat. run. fold (manifest_path model_path). now rewrite Hopen.
Qed.

(** [import name] for a module at the top: one lookup. *)
Lemma py_import_top name :
  dotted_prefixes "" (split "."%char name) = [name] ->
  py_import W name =
  if importable W name then ret tt
  else raise (mkExc "ModuleNotFoundError" ("No module named " +:+ repr name)).
Proof. intros H. unfold py_import. rewrite H. reflexivity. Qed.

(** [import package.module]: the package first, then the module. *)
Lemma py_import_nested package name :
  dotted_prefixes "" (split "."%char name) = [package; name] ->
  py_import W name =
  if importable W package then
    if importable W name then ret tt
    else raise (mkExc "ModuleNotFoundError" ("No module named " +:+ repr name))
  else raise (mkExc "ModuleNotFoundError" ("No module named " +:+ repr package)).
Proof. intros H. unfold py_import. rewrite H. reflexivity. Qed.

(** The environment check with the runtime in place: it returns, having
    asked for the memory once. *)
Lemma setup_environment_ready s :
  importable W "mlx" = true -> importable W "mlx_lm" = true ->
  exists s',
    setup_environment W s = Ret tt s' /\
    same_resources s s' /\
    ext_calls s' = (ext_calls s ++ [CallGetActiveMemory])%list.
Proof.
  intros H1 H2. unfold setup_environment, call_get_active_memory.
  rewrite (py_import_top "mlx" eq_refl), (py_import_top "mlx_lm" eq_refl), H1, H2.
  run.
  destruct (mx_get_active_memory W) as [e | bytes]; run.
  - eexists. repeat split.
  - destruct (true_divide_gib bytes) as [e | numerator]; run.
    + eexists. repeat split.
    + destruct (numerator <? 8 * (1024 * 1024 * 1024))%N; run;
        eexists; repeat split.
Qed.

(** The environment check without the runtime: [sys.exit(1)], and no
    call into the libraries. *)
Lemma setup_environment_missing s :
  importable W "mlx" = false \/ importable W "mlx_lm" = false ->
  exists s',
    setup_environment W s = SysExit 1 s' /\
    same_resources s s' /\
    ext_calls s' = ext_calls s /\
    List.last (stdout s') "" = "Install with: pip install mlx-lm".
Proof.
  intros H. unfold setup_environment.
  rewrite (py_import_top "mlx" eq_refl), (py_import_top "mlx_lm" eq_refl).
  destruct (importable W "mlx") eqn:H1.
  - destruct H as [H | H]; [discriminate H|]. rewrite H. run.
    eexists. repeat split. cbn [stdout]. apply last_snoc.
  - run. eexists. repeat split. cbn [stdout]. apply last_snoc.
Qed.

(** The iOS step loads what it is given and always returns. *)
Lemma optimize_for_ios_run model_path s :
  exists s',
    optimize_for_ios W model_path s = Ret tt s' /\
    same_resources s s' /\
    ext_calls s' = (ext_calls s ++ [CallLoad model_path])%list.
Proof.
  unfold optimize_for_ios, call_load. run.
  destruct (mlx_load W (fs s) model_path) as [e | mt]; run;
    eexists; repeat split.
Qed.

(** The driver on an id outside the catalog: two lines on the console,
    [False], and nothing else. *)
Lemma convert_unknown_run fuel model_name output_dir quantization s :
  assoc model_name DEEPSEEK_MODELS = None ->
  convert_model_to_mlx W fuel model_name output_dir quantization s =
  Ret false
      (mkState (fs s) (clock_reads s) (random_draws s)
         (stdout s ++ [ "❌ Unknown model: " +:+ model_name;
                        "Available models: " +:+ repr_list catalog_ids ])
         (stderr s) (ext_calls s)).
Proof.
  intros Hcat. unfold convert_model_to_mlx. rewrite Hcat. run.
  now rewrite <- app_assoc.
Qed.

(** The driver on a catalog id, once the allocator has found the first
    unused candidate: what it returns, the file system it leaves and
    the calls it made, by what the converter and the opening of the
    manifest did. *)
Lemma convert_known_run fuel model_name output_dir quantization config s k :
  assoc model_name DEEPSEEK_MODELS = Some config ->
  first_unused W s output_dir k -> k < fuel ->
  let p := candidate_at W s output_dir k in
  let a := convert_call config p quantization in
  exists b s',
    convert_model_to_mlx W fuel model_name output_dir quantization s = Ret b s' /\
    b = conversion_ok W (fs s) config p quantization /\
    stderr s' = stderr s /\
    match mlx_convert W a (fs s) with
    | (fsys', Some e) =>
        fs s' = fsys' /\
        ext_calls s' = (ext_calls s ++ [CallConvert a])%list /\
        List.last (stdout s') "" = "❌ Conversion failed: " +:+ exc_str e
    | (fsys', None) =>
        ext_calls s' =
          (ext_calls s ++ CallConvert a :: smoke_calls W fsys' (str p))%list /\
        match open_w_error W fsys' (manifest_path (str p)) with
        | Some e =>
            fs s' = fsys' /\
            List.last (stdout s') "" = "❌ Conversion failed: " +:+ exc_str e
        | None =>
            fs s' = mkFS (dirs fsys')
                      (<[ manifest_path (str p) :=
                            model_info (str p) model_name quantization
                              (clock W (S k + clock_reads s)) config ]>
                         (files fsys'))
        end
    end.
Proof.
  intros Hcat Hfirst Hfuel p a.
  unfold convert_model_to_mlx. rewrite Hcat.
  unfold try_except at 1. unfold bind at 1 2 3 4 5. unfold print at 1 2 3 4.
  cbv beta iota.
  match goal with
  | |- context [allocate_output_path W fuel output_dir ?s0] =>
      rewrite (allocate_run W output_dir s0 k fuel Hfirst Hfuel);
      change (candidate_at W s0 output_dir k) with p
  end.
  assert (Hcall :
    (if String.eqb quantization "q4" then
       call_convert W (mkConvertArgs (hf_path config) (str p) true (Some 4%Z) (Some 64%Z))
     else if String.eqb quantization "q8" then
       call_convert W (mkConvertArgs (hf_path config) (str p) true (Some 8%Z) (Some 64%Z))
     else
       call_convert W (mkConvertArgs (hf_path config) (str p) false None None))
    = call_convert W a).
  { unfold a, convert_call. now destruct (String.eqb quantization "q4"), (String.eqb quantization "q8"). }
  rewrite Hcall. clear Hcall.
  unfold conversion_ok. fold a. unfold call_convert. run.
  destruct (mlx_convert W a (fs s)) as [fsys' [e|]]; cbn [fst snd]; run.
  - eexists _, _. repeat split. cbn [stdout]. apply last_snoc.
  - match goal with
    | |- context [test_model W (str p) ?s1] =>
        destruct (test_model_run (str p) s1) as (s2 & lines & -> & Hres & Hcalls & _ & _)
    end.
    cbn [fs ext_calls] in Hres, Hcalls.
    destruct Hres as (Hfs & Hclock & Hrand & Herr). cbn in Hfs, Hclock, Hrand, Herr.
    destruct (open_w_error W fsys' (manifest_path (str p))) as [e | ] eqn:Hopen.
    + rewrite (generate_model_info_refused (str p) model_name quantization config e s2 Hcat)
        by (rewrite Hfs; exact Hopen).
      run. eexists _, _. repeat split; cbn [stderr fs ext_calls stdout].
      * exact Herr.
      * rewrite Hcalls. now rewrite <- app_assoc.
      * exact Hfs.
      * apply last_snoc.
    + destruct (generate_model_info_written (str p) model_name quantization config s2 Hcat)
        as (s3 & -> & Hfs3 & _ & _ & Herr3 & Hcalls3);
        [rewrite Hfs; exact Hopen|].
      run. eexists _, _. repeat split; refold_state.
      * congruence.
      * rewrite Hcalls3, Hcalls. now rewrite <- app_assoc.
      * rewrite Hfs3, Hfs, Hclock. reflexivity.
Qed.

Lemma driver_calls_run fuel model_name output_dir quantization config s k :
  assoc model_name DEEPSEEK_MODELS = Some config ->
  first_unused W s output_dir k -> k < fuel ->
  let p := candidate_at W s output_dir k in
  exists s',
    convert_model_to_mlx W fuel model_name output_dir quantization s =
      Ret (conversion_ok W (fs s) config p quantization) s' /\
    stderr s' = stderr s /\
    ext_calls s' = (ext_calls s ++ driver_calls W (fs s) config p quantization)%list.
Proof.
  intros Hcat Hfirst Hfuel p.
  destruct (convert_known_run fuel model_name output_dir quantization config s k
              Hcat Hfirst Hfuel) as (b & s' & Hrun & -> & Herr & Hrest).
  exists s'. repeat split; try assumption.
  fold p in Hrest. unfold driver_calls.
  destruct (mlx_convert W (convert_call config p quantization) (fs s)) as [fsys' [e|]];
    [apply Hrest | apply Hrest].
Qed.

Lemma candidate_at_same s s' output_dir i :
  same_resources s s' ->
  candidate_at W s' output_dir i = candidate_at W s output_dir i.
Proof. intros (_ & Hc & Hr & _). unfold candidate_at. now rewrite Hc, Hr. Qed.

Lemma exists_test_same s s' output_dir i :
  same_resources s s' ->
  exists_test W s' output_dir i = exists_test W s output_dir i.
Proof.
  intros Hsame. pose proof Hsame as (Hfs & _). unfold exists_test.
  now rewrite (candidate_at_same s s'), Hfs.
Qed.

Lemma first_unused_same s s' output_dir k :
  same_resources s s' ->
  first_unused W s output_dir k -> first_unused W s' output_dir k.
Proof.
  intros Hsame [Htaken Hfree].
  split; [intros i Hi|]; rewrite (exists_test_same s s') by assumption; auto.
Qed.

Lemma first_raising_same s s' output_dir k e :
  same_resources s s' ->
  first_raising W s output_dir k e -> first_raising W s' output_dir k e.
Proof.
  intros Hsame [Htaken Hraise].
  split; [intros i Hi|]; rewrite (exists_test_same s s') by assumption; auto.
Qed.

(** When an existence test raises, the handler of the driver takes the
    exception: the failure line, [False], and no call into the
    libraries. *)
Lemma convert_known_raise fuel model_name output_dir quantization config s k e :
  assoc model_name DEEPSEEK_MODELS = Some config ->
  first_raising W s output_dir k e -> k < fuel ->
  exists s',
    convert_model_to_mlx W fuel model_name output_dir quantization s = Ret false s' /\
    fs s' = fs s /\ ext_calls s' = ext_calls s /\ stderr s' = stderr s /\
    List.last (stdout s') "" = "❌ Conversion failed: " +:+ exc_str e.
Proof.
  intros Hcat Hfirst Hfuel. unfold convert_model_to_mlx. rewrite Hcat.
  unfold try_except at 1. unfold bind at 1 2 3 4 5. unfold print at 1 2 3 4.
  cbv beta iota.
  match goal with
  | |- context [allocate_output_path W fuel output_dir ?s0] =>
      rewrite (allocate_raise W output_dir s0 k e fuel Hfirst Hfuel)
  end.
  run. eexists. repeat split. cbn [stdout]. apply last_snoc.
Qed.

(** While the allocator is in its loop, so is the driver. *)
Lemma convert_known_spin fuel model_name output_dir quantization config s :
  assoc model_name DEEPSEEK_MODELS = Some config ->
  (forall j, j < fuel -> exists_test W s output_dir j = inr true) ->
  convert_model_to_mlx W fuel model_name output_dir quantization s = Spin.
Proof.
  intros Hcat Htaken. unfold convert_model_to_mlx. rewrite Hcat.
  unfold try_except at 1. unfold bind at 1 2 3 4 5. unfold print at 1 2 3 4.
  cbv beta iota.
  match goal with
  | |- context [allocate_output_path W fuel output_dir ?s0] =>
      rewrite (allocate_spin W output_dir s0 fuel Htaken)
  end.
  reflexivity.
Qed.

End Stages.

(* ===================================================================== *)
(** * The command line and [main] *)
(* ===================================================================== *)

Lemma choice_in_catalog v : existsb (String.eqb v) catalog_ids = in_catalog v.
Proof.
  unfold in_catalog, catalog_ids. simpl.
  destruct (String.eqb v "deepseek-r1-8b"), (String.eqb v "deepseek-r1-qwen-8b");
    reflexivity.
Qed.

Lemma in_catalog_assoc v :
  in_catalog v = true <-> exists config, assoc v DEEPSEEK_MODELS = Some config.
Proof.
  unfold in_catalog. destruct (assoc v DEEPSEEK_MODELS) as [c|].
  - split; [eauto | reflexivity].
  - split; [discriminate | intros [c H]; discriminate H].
Qed.

(** What the parser lets through: the state is untouched, the model is a
    catalog id and the quantization one of the three levels. *)
Lemma parse_items_accepts items :
  forall ns extras s ns' s',
    parse_items items ns extras s = Ret ns' s' ->
    s' = s /\
    (in_catalog (arg_model ns) = true -> in_catalog (arg_model ns') = true) /\
    (In (arg_quantization ns) quantization_choices ->
     In (arg_quantization ns') quantization_choices).
Proof.
  induction items as [|item items IH]; intros ns extras s ns' s' H.
  - cbn [parse_items] in H. destruct extras; [|discriminate H].
    injection H as -> ->. auto.
  - destruct item; cbn [parse_items] in H.
    + rewrite choice_in_catalog in H.
      destruct (in_catalog value) eqn:Hv; [|discriminate H].
      apply IH in H as (-> & Hm & Hq). auto.
    + apply IH in H as (-> & Hm & Hq). auto.
    + destruct (existsb (String.eqb value) quantization_choices) eqn:Hv;
        [|discriminate H].
      apply IH in H as (-> & Hm & Hq). repeat split; auto.
      intros _. apply Hq. cbn [arg_quantization].
      apply existsb_exists in Hv as (x & Hx & E).
      apply String.eqb_eq in E. now subst.
    + apply IH in H as (-> & Hm & Hq). auto.
    + discriminate H.
    + apply IH in H as (-> & Hm & Hq). auto.
Qed.

Lemma parse_args_accepts argv s ns s' :
  parse_args argv s = Ret ns s' ->
  s' = s /\ in_catalog (arg_model ns) = true /\
  In (arg_quantization ns) quantization_choices.
Proof.
  intros H. apply parse_items_accepts in H as (-> & Hm & Hq).
  repeat split; [apply Hm; reflexivity | apply Hq; left; reflexivity].
Qed.

(** A model outside the choices is rejected on the spot, whatever
    follows it on the command line. *)
Lemma parse_model_rejected value rest ns extras s :
  in_catalog value = false ->
  parse_items (OptModel value :: rest) ns extras s =
  SysExit 2 (mkState (fs s) (clock_reads s) (random_draws s) (stdout s)
               (stderr s ++ [InvalidChoice "--model" value catalog_ids])
               (ext_calls s)).
Proof.
  intros H. cbn [parse_items]. rewrite choice_in_catalog, H. reflexivity.
Qed.

Lemma parse_items_accepted items :
  forall ns extras s ns' s',
    parse_items items ns extras s = Ret ns' s' <->
    forallb acceptable items = true /\ extras = [] /\
    ns' = fold_left store items ns /\ s' = s.
Proof.
  induction items as [|item items IH]; intros ns extras s ns' s'.
  - cbn [parse_items forallb fold_left]. destruct extras.
    + split; [intros H; injection H as <- <-; auto | intros (_ & _ & -> & ->); reflexivity].
    + split; [intros H; discriminate H | intros (_ & H & _); discriminate H].
  - destruct item; cbn [parse_items forallb fold_left acceptable store].
    + rewrite choice_in_catalog. destruct (in_catalog value).
      * rewrite IH. reflexivity.
      * split; [intros H; discriminate H | intros (H & _); discriminate H].
    + rewrite IH. reflexivity.
    + destruct (existsb (String.eqb value) quantization_choices).
      * rewrite IH. reflexivity.
      * split; [intros H; discriminate H | intros (H & _); discriminate H].
    + rewrite IH. reflexivity.
    + split; [intros H; discriminate H | intros (H & _); discriminate H].
    + rewrite IH. split.
      * intros (_ & H & _). now destruct extras.
      * intros (H & _). discriminate H.
Qed.

(** The parser returns, or ends the process with status 0 or 2, having
    written to the console at most; status 0 is the help. *)
Lemma parse_items_outcome items :
  forall ns extras s,
    (exists ns', parse_items items ns extras s = Ret ns' s) \/
    (exists c s', parse_items items ns extras s = SysExit c s' /\
                  ((c = 0%Z /\ In OptHelp items) \/ c = 2%Z) /\ quiet s s').
Proof.
  induction items as [|item items IH]; intros ns extras s.
  - cbn [parse_items]. destruct extras; [left; eauto|].
    right. eexists _, _. split; [reflexivity|]. split; [now right | repeat split].
  - assert (Hnext : forall ns' extras',
              (exists ns'', parse_items items ns' extras' s = Ret ns'' s) \/
              (exists c s', parse_items items ns' extras' s = SysExit c s' /\
                            ((c = 0%Z /\ In OptHelp (item :: items)) \/ c = 2%Z) /\
                            quiet s s')).
    { intros ns' extras'.
      destruct (IH ns' extras' s) as [H | (c & s' & Hrun & Hc & Hq)]; [now left|].
      right. exists c, s'. split; [exact Hrun|]. split; [|exact Hq].
      destruct Hc as [[Hc Hin] | Hc]; [left; split; [exact Hc | now right] | now right]. }
    destruct item; cbn [parse_items]; try apply Hnext.
    + destruct (existsb (String.eqb value) catalog_ids); [apply Hnext|].
      right. eexists _, _. split; [reflexivity|]. split; [now right | repeat split].
    + destruct (existsb (String.eqb value) quantization_choices); [apply Hnext|].
      right. eexists _, _. split; [reflexivity|]. split; [now right | repeat split].
    + right. eexists _, _. split; [reflexivity|].
      split; [left; split; [reflexivity | now left] | repeat split].
Qed.

(** A command line that is not acceptable throughout does not get past
    the parser. *)
Lemma parse_args_turned_down argv s :
  forallb acceptable argv = false ->
  exists c s',
    parse_args argv s = SysExit c s' /\
    ((c = 0%Z /\ In OptHelp argv) \/ c = 2%Z) /\ quiet s s'.
Proof.
  intros Hacc.
  destruct (parse_items_outcome argv default_namespace [] s)
    as [(ns & Hparse) | H]; [|exact H].
  apply parse_items_accepted in Hparse as (Hyes & _). congruence.
Qed.

(** The occurrences before a value outside the choices being acceptable,
    the parser reports that value. *)
Lemma parse_items_first_invalid before :
  forall value after ns s,
    forallb acceptable before = true ->
    in_catalog value = false ->
    parse_items (before ++ OptModel value :: after) ns [] s =
    SysExit 2 (mkState (fs s) (clock_reads s) (random_draws s) (stdout s)
                 (stderr s ++ [InvalidChoice "--model" value catalog_ids])
                 (ext_calls s)).
Proof.
  induction before as [|item before IH]; intros value after ns s Hacc Hout.
  - now apply parse_model_rejected.
  - cbn [forallb] in Hacc. apply andb_true_iff in Hacc as [Hitem Hrest].
    destruct item; cbn [app parse_items]; cbn [acceptable] in Hitem;
      try discriminate Hitem.
    + rewrite choice_in_catalog, Hitem. now apply IH.
    + now apply IH.
    + rewrite Hitem. now apply IH.
    + now apply IH.
Qed.

Section Main.

Variable W : World.

(** [main] on an accepted command line, with the runtime in place and
    the allocator finding its first unused candidate: the process
    returns or exits with 1 by what the driver returned. *)
Lemma main_run fuel argv ns config s k :
  parse_args argv s = Ret ns s ->
  importable W "mlx" = true -> importable W "mlx_lm" = true ->
  assoc (arg_model ns) DEEPSEEK_MODELS = Some config ->
  first_unused W s (arg_output ns) k -> k < fuel ->
  let p := candidate_at W s (arg_output ns) k in
  let ok := conversion_ok W (fs s) config p (arg_quantization ns) in
  exists s',
    main W fuel argv s = (if ok then Ret tt s' else SysExit 1 s') /\
    stderr s' = stderr s /\
    ext_calls s' =
      (ext_calls s ++
       CallGetActiveMemory ::
       driver_calls W (fs s) config p (arg_quantization ns) ++
       (if ok && arg_optimize_ios ns then [CallLoad (arg_output ns)] else []))%list.
Proof.
  intros Hparse H1 H2 Hcat Hfirst Hfuel p ok.
  unfold main. unfold bind at 1. rewrite Hparse.
  unfold bind at 1 2 3. unfold print at 1 2. cbv beta iota.
  match goal with
  | |- context [setup_environment W ?s0] =>
      destruct (setup_environment_ready W s0 H1 H2) as (s1 & -> & Hsame & Hcalls1)
  end.
  assert (Hsame1 : same_resources s s1) by exact Hsame.
  cbn [ext_calls] in Hcalls1.
  pose proof (first_unused_same W s s1 _ k Hsame1 Hfirst) as Hfirst1.
  destruct (driver_calls_run W fuel (arg_model ns) (arg_output ns)
              (arg_quantization ns) config s1 k Hcat Hfirst1 Hfuel)
    as (s2 & Hrun & Herr2 & Hcalls2).
  rewrite (candidate_at_same W s s1 _ k Hsame1) in Hrun, Hcalls2.
  destruct Hsame1 as (Hfs1 & _ & _ & Herr1).
  rewrite Hfs1 in Hrun, Hcalls2. fold p in Hrun, Hcalls2. fold ok in Hrun.
  unfold bind at 1. rewrite Hrun.
  destruct ok eqn:Hok; cbn [andb].
  - destruct (arg_optimize_ios ns).
    + unfold bind at 1.
      destruct (optimize_for_ios_run W (arg_output ns) s2)
        as (s3 & -> & (_ & _ & _ & Herr3) & Hcalls3).
      run. eexists. repeat split; cbn [stderr ext_calls].
      * congruence.
      * rewrite Hcalls3, Hcalls2, Hcalls1.
        rewrite <- !app_assoc. reflexivity.
    + run. eexists. repeat split; cbn [stderr ext_calls].
      * congruence.
      * rewrite Hcalls2, Hcalls1, app_nil_r.
        rewrite <- !app_assoc. reflexivity.
  - run. eexists. repeat split; cbn [stderr ext_calls].
    + congruence.
    + rewrite Hcalls2, Hcalls1, app_nil_r.
      rewrite <- !app_assoc. reflexivity.
Qed.

Lemma main_spin fuel argv ns config s :
  parse_args argv s = Ret ns s ->
  importable W "mlx" = true -> importable W "mlx_lm" = true ->
  assoc (arg_model ns) DEEPSEEK_MODELS = Some config ->
  (forall j, j < fuel -> exists_test W s (arg_output ns) j = inr true) ->
  main W fuel argv s = Spin.
Proof.
  intros Hparse H1 H2 Hcat Htaken.
  unfold main. unfold bind at 1. rewrite Hparse.
  unfold bind at 1 2 3. unfold print at 1 2. cbv beta iota.
  match goal with
  | |- context [setup_environment W ?s0] =>
      destruct (setup_environment_ready W s0 H1 H2) as (s1 & -> & Hsame & _)
  end.
  assert (Hsame1 : same_resources s s1) by exact Hsame.
  unfold bind at 1.
  rewrite (convert_known_spin W fuel _ _ _ config s1 Hcat); [reflexivity|].
  intros j Hj. rewrite (exists_test_same W s s1) by assumption.
  now apply Htaken.
Qed.

(** When an existence test raises, [main] ends with status 1, the memory
    query being the only call it made. *)
Lemma main_raise fuel argv ns config s k e :
  parse_args argv s = Ret ns s ->
  importable W "mlx" = true -> importable W "mlx_lm" = true ->
  assoc (arg_model ns) DEEPSEEK_MODELS = Some config ->
  first_raising W s (arg_output ns) k e -> k < fuel ->
  exists s',
    main W fuel argv s = SysExit 1 s' /\
    fs s' = fs s /\
    ext_calls s' = (ext_calls s ++ [CallGetActiveMemory])%list /\
    List.last (stdout s') "" = nl +:+ "❌ Conversion failed!".
Proof.
  intros Hparse H1 H2 Hcat Hfirst Hfuel.
  unfold main. unfold bind at 1. rewrite Hparse.
  unfold bind at 1 2 3. unfold print at 1 2. cbv beta iota.
  match goal with
  | |- context [setup_environment W ?s0] =>
      destruct (setup_environment_ready W s0 H1 H2) as (s1 & -> & Hsame & Hcalls1)
  end.
  assert (Hsame1 : same_resources s s1) by exact Hsame.
  cbn [ext_calls] in Hcalls1.
  pose proof (first_raising_same W s s1 _ k e Hsame1 Hfirst) as Hfirst1.
  destruct (convert_known_raise W fuel (arg_model ns) (arg_output ns)
              (arg_quantization ns) config s1 k e Hcat Hfirst1 Hfuel)
    as (s2 & Hrun & Hfs2 & Hcalls2 & _).
  unfold bind at 1. rewrite Hrun. cbn [andb]. run.
  destruct Hsame1 as (Hfs1 & _).
  eexists. split; [reflexivity|]. cbn [fs ext_calls stdout].
  split; [congruence|]. split; [congruence | apply last_snoc].
Qed.

(** [main] without the runtime: [sys.exit(1)] in the environment check,
    before the driver is called. *)
Lemma main_missing fuel argv ns s :
  parse_args argv s = Ret ns s ->
  importable W "mlx" = false \/ importable W "mlx_lm" = false ->
  exists s',
    main W fuel argv s = SysExit 1 s' /\
    same_resources s s' /\
    ext_calls s' = ext_calls s.
Proof.
  intros Hparse Hmiss. unfold main. unfold bind at 1. rewrite Hparse.
  unfold bind at 1 2 3. unfold print at 1 2. cbv beta iota.
  match goal with
  | |- context [setup_environment W ?s0] =>
      destruct (setup_environment_missing W s0 Hmiss) as (s1 & -> & Hsame & Hcalls & _)
  end.
  exists s1. repeat split; try apply Hsame. exact Hcalls.
Qed.

(** The file as a program: with the modules of its header importable it
    is [main]. *)
Lemma script_run fuel argv s :
  header_importable W = true ->
  script W fuel argv s = main W fuel argv s.
Proof.
  unfold header_importable. cbn [forallb]. rewrite !andb_true_iff.
  intros (H1 & H2 & H3 & H4 & H5 & _). unfold script.
  rewrite (py_import_nested W "mlx" "mlx.core" eq_refl),
    (py_import_top W "mlx_lm" eq_refl),
    (py_import_nested W "mlx_lm" "mlx_lm.utils" eq_refl),
    (py_import_top W "numpy" eq_refl), H1, H2, H3, H4, H5.
  reflexivity.
Qed.

(** With one of them missing, the import raises before [main] is
    reached, and nothing has happened. *)
Lemma script_missing fuel argv s :
  header_importable W = false ->
  exists e, script W fuel argv s = Raise e s.
Proof.
  unfold header_importable. cbn [forallb]. intros H. unfold script.
  rewrite (py_import_nested W "mlx" "mlx.core" eq_refl),
    (py_import_top W "mlx_lm" eq_refl),
    (py_import_nested W "mlx_lm" "mlx_lm.utils" eq_refl),
    (py_import_top W "numpy" eq_refl).
  destruct (importable W "mlx"); [|eexists; reflexivity].
  destruct (importable W "mlx.core"); [|eexists; reflexivity].
  destruct (importable W "mlx_lm"); [|eexists; reflexivity].
  destruct (importable W "mlx_lm.utils"); [|eexists; reflexivity].
  destruct (importable W "numpy"); [|eexists; reflexivity].
  discriminate H.
Qed.

End Main.

(* ===================================================================== *)
(** * The loader and the generator do not decide *)
(* ===================================================================== *)

Section Loader.

Variable W : World.
Variable load : FileSystem -> string -> Exception + (N * N).
Variable generate : N -> N -> string -> Z -> Q -> Exception + string.

Let W' : World := with_loader W load generate.

(** What the driver returns is the same with any loader and generator. *)
Lemma driver_loader_independent fuel model_name output_dir quantization s :
  returned (convert_model_to_mlx W' fuel model_name output_dir quantization s) =
  returned (convert_model_to_mlx W fuel model_name output_dir quantization s).
Proof.
  destruct (assoc model_name DEEPSEEK_MODELS) as [config|] eqn:Hcat.
  - destruct (allocate_cases W output_dir s fuel)
      as [(k & Hk & Hfirst & _) | [(k & e & Hk & Hfirst & _) | [Hall _]]].
    + destruct (driver_calls_run W fuel model_name output_dir quantization config s k
                  Hcat Hfirst Hk) as (s1 & -> & _).
      destruct (driver_calls_run W' fuel model_name output_dir quantization config s k
                  Hcat Hfirst Hk) as (s2 & -> & _).
      reflexivity.
    + destruct (convert_known_raise W fuel model_name output_dir quantization config
                  s k e Hcat Hfirst Hk) as (s1 & -> & _).
      destruct (convert_known_raise W' fuel model_name output_dir quantization config
                  s k e Hcat Hfirst Hk) as (s2 & -> & _).
      reflexivity.
    + rewrite (convert_known_spin W fuel _ _ _ config s Hcat Hall).
      rewrite (convert_known_spin W' fuel _ _ _ config s Hcat Hall).
      reflexivity.
  - now rewrite !convert_unknown_run.
Qed.

(** So is the exit status of [main]. *)
Lemma main_loader_independent fuel argv s :
  exit_status (main W' fuel argv s) = exit_status (main W fuel argv s).
Proof.
  destruct (parse_args argv s) as [ns s0 | e s0 | c s0 | ] eqn:Hparse.
  - destruct (parse_args_accepts argv s ns s0 Hparse) as (-> & Hin & _).
    apply in_catalog_assoc in Hin as [config Hcat].
    destruct (importable W "mlx") eqn:H1; [destruct (importable W "mlx_lm") eqn:H2|].
    + destruct (allocate_cases W (arg_output ns) s fuel)
        as [(k & Hk & Hfirst & _) | [(k & e & Hk & Hfirst & _) | [Hall _]]].
      * destruct (main_run W fuel argv ns config s k Hparse H1 H2 Hcat Hfirst Hk)
          as (s1 & -> & _).
        destruct (main_run W' fuel argv ns config s k Hparse H1 H2 Hcat Hfirst Hk)
          as (s2 & -> & _).
        change (conversion_ok W' (fs s) config
                  (candidate_at W' s (arg_output ns) k) (arg_quantization ns))
          with (conversion_ok W (fs s) config
                  (candidate_at W s (arg_output ns) k) (arg_quantization ns)).
        now destruct (conversion_ok W (fs s) config
                        (candidate_at W s (arg_output ns) k) (arg_quantization ns)).
      * destruct (main_raise W fuel argv ns config s k e Hparse H1 H2 Hcat Hfirst Hk)
          as (s1 & -> & _).
        destruct (main_raise W' fuel argv ns config s k e Hparse H1 H2 Hcat Hfirst Hk)
          as (s2 & -> & _).
        reflexivity.
      * rewrite (main_spin W fuel argv ns config s Hparse H1 H2 Hcat Hall).
        rewrite (main_spin W' fuel argv ns config s Hparse H1 H2 Hcat Hall).
        reflexivity.
    + destruct (main_missing W fuel argv ns s Hparse (or_intror H2)) as (s1 & -> & _).
      destruct (main_missing W' fuel argv ns s Hparse (or_intror H2)) as (s2 & -> & _).
      reflexivity.
    + destruct (main_missing W fuel argv ns s Hparse (or_introl H1)) as (s1 & -> & _).
      destruct (main_missing W' fuel argv ns s Hparse (or_introl H1)) as (s2 & -> & _).
      reflexivity.
  - unfold main, bind. now rewrite Hparse.
  - unfold main, bind. now rewrite Hparse.
  - unfold main, bind. now rewrite Hparse.
Qed.

(** And the exit status of the process. *)
Lemma script_loader_independent fuel argv s :
  exit_status (script W' fuel argv s) = exit_status (script W fuel argv s).
Proof.
  destruct (header_importable W) eqn:H.
  - rewrite (script_run W fuel argv s H), (script_run W' fuel argv s H).
    apply main_loader_independent.
  - destruct (script_missing W fuel argv s H) as [e ->].
    destruct (script_missing W' fuel argv s H) as [e' ->].
    reflexivity.
Qed.

End Loader.

(* ===================================================================== *)
(** * The properties of the pipeline *)
(* ===================================================================== *)

(** ** Unknown model ids *)

(** On the command line [--model not-a-real-model] the process does not
    exit with status 1: the argument parser ends it with status 2. *)
Lemma unknown_model_exit_status_two :
  in_catalog "not-a-real-model" = false /\
  exit_status (script Sample.world 5 [OptModel "not-a-real-model"]
                 (initial_state Sample.models_dir)) = Some 2%Z /\
  exit_status (script Sample.world 5 [OptModel "not-a-real-model"]
                 (initial_state Sample.models_dir)) <> Some 1%Z.
Proof.
  split; [reflexivity|]. split; [vm_compute; reflexivity|].
  vm_compute. discriminate.
Qed.

(** C1, as the code has it.  For a model id outside the catalog: the
    driver, called with it, prints the unknown-model line and the list of
    the valid ids, returns [False], and touches neither the file system
    nor the external libraries.  A command line that carries [--model]
    with such an id never gets past the argument parser, whose choices
    for [--model] are the catalog ids: [main] ends in the parser with
    exit status 2, or with status 0 when the help is asked for earlier on
    the command line, and no stage has run, nothing is written and no
    library is called; when the occurrences before the id are acceptable
    the error is the invalid choice for [--model], which carries the
    catalog ids.  The process is [main] when the modules at the head of
    the file can be imported, and ends in the import with status 1,
    nothing done, when one cannot.  No accepted command line carries
    such an id. *)
Theorem unknown_model_rejected W fuel model_name s :
  in_catalog model_name = false ->
  (forall output_dir quantization,
   exists s',
     convert_model_to_mlx W fuel model_name output_dir quantization s = Ret false s' /\
     fs s' = fs s /\ ext_calls s' = ext_calls s /\
     stdout s' =
       (stdout s ++
        [ "❌ Unknown model: " +:+ model_name;
          "Available models: ['deepseek-r1-8b', 'deepseek-r1-qwen-8b']" ])%list) /\
  (forall argv,
     In (OptModel model_name) argv ->
     exists c s',
       main W fuel argv s = SysExit c s' /\
       ((c = 0%Z /\ In OptHelp argv) \/ c = 2%Z) /\
       quiet s s') /\
  (forall before after,
     forallb acceptable before = true ->
     exists s',
       main W fuel (before ++ OptModel model_name :: after) s = SysExit 2 s' /\
       quiet s s' /\ stdout s' = stdout s /\
       stderr s' =
         (stderr s ++
          [ InvalidChoice "--model" model_name
              [ "deepseek-r1-8b"; "deepseek-r1-qwen-8b" ] ])%list) /\
  (forall argv,
     (header_importable W = true ->
      script W fuel argv s = main W fuel argv s) /\
     (header_importable W = false ->
      exit_status (script W fuel argv s) = Some 1%Z /\
      final_state (script W fuel argv s) = Some s)) /\
  (forall argv ns s', parse_args argv s = Ret ns s' -> arg_model ns <> model_name).
Proof.
  intros Hout. split; [|split; [|split; [|split]]].
  - intros output_dir quantization.
    assert (Hcat : assoc model_name DEEPSEEK_MODELS = None).
    { unfold in_catalog in Hout. now destruct (assoc model_name DEEPSEEK_MODELS). }
    rewrite (convert_unknown_run W fuel model_name output_dir quantization s Hcat).
    eexists. repeat split.
  - intros argv Hin.
    assert (Hacc : forallb acceptable argv = false).
    { destruct (forallb acceptable argv) eqn:Hacc; [|reflexivity].
      rewrite forallb_forall in Hacc. specialize (Hacc _ Hin).
      cbn [acceptable] in Hacc. congruence. }
    destruct (parse_args_turned_down argv s Hacc) as (c & s' & Hparse & Hc & Hq).
    exists c, s'. split; [|split; assumption].
    unfold main, bind. now rewrite Hparse.
  - intros before after Hacc.
    unfold main, parse_args, bind.
    rewrite (parse_items_first_invalid before model_name after default_namespace s
               Hacc Hout).
    eexists. repeat split.
  - intros argv. split.
    + apply script_run.
    + intros H. destruct (script_missing W fuel argv s H) as [e ->].
      split; reflexivity.
  - intros argv ns s' Hparse E.
    apply parse_args_accepts in Hparse as (_ & Hin & _). congruence.
Qed.

Lemma unknown_model_rejected_witness :
  exists s',
    main Sample.world 5 [OptOptimizeIos; OptModel "not-a-real-model"; OptHelp]
      (initial_state Sample.models_dir) = SysExit 2 s' /\
    fs s' = Sample.models_dir.
Proof.
  destruct (unknown_model_rejected Sample.world 5 "not-a-real-model"
              (initial_state Sample.models_dir))
    as (_ & _ & Hfirst & _); [reflexivity|].
  destruct (Hfirst [OptOptimizeIos] [OptHelp]) as (s' & Hrun & (Hfs & _) & _);
    [reflexivity|].
  exists s'. split; [exact Hrun | exact Hfs].
Defined.

(** ** The output path allocator *)






(** ** Quantization *)



(** ** The manifest *)

(** C4.  For a valid quantization level, the manifest written for it has
    [min_memory_gb] 8 when the level is [q4] and 12 when it is [q8] or
    [none]. *)
Theorem manifest_min_memory W model_path model_name quantization config s :
  assoc model_name DEEPSEEK_MODELS = Some config ->
  In quantization quantization_choices ->
  open_w_error W (fs s) (manifest_path model_path) = None ->
  exists s' info usage min_memory_gb,
    generate_model_info W model_path model_name quantization s = Ret tt s' /\
    files (fs s') !! manifest_path model_path = Some info /\
    json_get "quantization" info = Some (JStr quantization) /\
    json_get "usage" info = Some usage /\
    json_get "min_memory_gb" usage = Some (JInt min_memory_gb) /\
    (quantization = "q4" -> min_memory_gb = 8%Z) /\
    (quantization = "q8" \/ quantization = "none" -> min_memory_gb = 12%Z).
Proof.
  intros Hcat Hq Hopen.
  destruct (generate_model_info_written W model_path model_name quantization config s
              Hcat Hopen) as (s' & Hrun & Hfs & _).
  eexists s', _, _, _. split; [exact Hrun|].
  split; [rewrite Hfs; cbn [files]; apply lookup_insert_eq|].
  split; [reflexivity|]. split; [reflexivity|]. split; [reflexivity|].
  destruct Hq as [<- | [<- | [<- | []]]]; cbn; split; try reflexivity;
    try (intros E; discriminate E); intros [E | E]; discriminate E.
Qed.

Lemma manifest_min_memory_witness :
  exists s' info usage,
    generate_model_info Sample.world "models/x_20240105_090307_1234"
      "deepseek-r1-8b" "none" (initial_state Sample.converted) = Ret tt s' /\
    files (fs s') !! "models/x_20240105_090307_1234/model_info.json" = Some info /\
    json_get "usage" info = Some usage /\
    json_get "min_memory_gb" usage = Some (JInt 12).
Proof.
  destruct (manifest_min_memory Sample.world "models/x_20240105_090307_1234"
              "deepseek-r1-8b" "none"
              (mkModelConfig "deepseek-ai/DeepSeek-R1-Distill-Llama-8B"
                 "DeepSeek R1 Distilled Llama 8B - optimized reasoning model")
              (initial_state Sample.converted))
    as (s' & info & usage & m & Hrun & Hfile & _ & Husage & Hmin & _ & H12).
  - reflexivity.
  - right. right. left. reflexivity.
  - vm_compute. reflexivity.
  - exists s', info, usage. repeat split; try assumption.
    rewrite Hmin, H12; [reflexivity | right; reflexivity].
Defined.

(** Two runs of the manifest writer on the same path, model and level,
    one clock reading apart: the file does not hold the same content
    after the second as after the first. *)
Lemma manifest_rewrite_differs :
  exists s1 s2,
    generate_model_info Sample.world "models/x_20240105_090307_1234"
      "deepseek-r1-8b" "q4" (initial_state Sample.converted) = Ret tt s1 /\
    generate_model_info Sample.world "models/x_20240105_090307_1234"
      "deepseek-r1-8b" "q4" s1 = Ret tt s2 /\
    files (fs s1) !! "models/x_20240105_090307_1234/model_info.json" <>
    files (fs s2) !! "models/x_20240105_090307_1234/model_info.json".
Proof.
  eexists _, _. split; [vm_compute; reflexivity|].
  split; [vm_compute; reflexivity|].
  vm_compute. intros E. discriminate E.
Qed.

(** C6, as the code has it.  The manifest writer overwrites and never
    merges: after two runs on the same path, model id and level the file
    holds the manifest of the second run alone, whatever the path held
    before; that manifest equals the one of the first run in every member
    but [converted_at], where each run records its own clock reading; the
    two contents are identical when both runs read the same clock value. *)
Theorem manifest_rewrite W model_path model_name quantization config s :
  assoc model_name DEEPSEEK_MODELS = Some config ->
  let path := manifest_path model_path in
  let info1 := model_info model_path model_name quantization
                 (clock W (clock_reads s)) config in
  let info2 := model_info model_path model_name quantization
                 (clock W (S (clock_reads s))) config in
  open_w_error W (fs s) path = None ->
  open_w_error W (mkFS (dirs (fs s)) (<[ path := info1 ]> (files (fs s)))) path = None ->
  exists s1 s2,
    generate_model_info W model_path model_name quantization s = Ret tt s1 /\
    generate_model_info W model_path model_name quantization s1 = Ret tt s2 /\
    files (fs s1) = <[ path := info1 ]> (files (fs s)) /\
    files (fs s2) = <[ path := info2 ]> (files (fs s)) /\
    dirs (fs s2) = dirs (fs s) /\
    json_without "converted_at" info2 = json_without "converted_at" info1 /\
    json_get "converted_at" info1 =
      Some (JStr (Datetime.isoformat (clock W (clock_reads s)))) /\
    json_get "converted_at" info2 =
      Some (JStr (Datetime.isoformat (clock W (S (clock_reads s))))) /\
    (clock W (S (clock_reads s)) = clock W (clock_reads s) -> fs s2 = fs s1).
Proof.
  intros Hcat path info1 info2 Hopen1 Hopen2.
  destruct (generate_model_info_written W model_path model_name quantization config s
              Hcat Hopen1) as (s1 & Hrun1 & Hfs1 & Hclock1 & _).
  fold path in Hfs1. fold info1 in Hfs1.
  destruct (generate_model_info_written W model_path model_name quantization config s1
              Hcat) as (s2 & Hrun2 & Hfs2 & _).
  { rewrite Hfs1. exact Hopen2. }
  fold path in Hfs2. rewrite Hclock1 in Hfs2. fold info2 in Hfs2.
  rewrite Hfs1 in Hfs2. cbn [dirs files] in Hfs2.
  rewrite insert_insert_eq in Hfs2.
  exists s1, s2. split; [exact Hrun1|]. split; [exact Hrun2|].
  split; [now rewrite Hfs1|]. split; [now rewrite Hfs2|].
  split; [now rewrite Hfs2|].
  split; [reflexivity|]. split; [reflexivity|]. split; [reflexivity|].
  intros Hsame. rewrite Hfs2, Hfs1. unfold info2, info1. now rewrite Hsame.
Qed.

Lemma manifest_rewrite_witness :
  exists s1 s2,
    generate_model_info Sample.world "models/x_20240105_090307_1234"
      "deepseek-r1-8b" "q4" (initial_state Sample.converted) = Ret tt s1 /\
    generate_model_info Sample.world "models/x_20240105_090307_1234"
      "deepseek-r1-8b" "q4" s1 = Ret tt s2 /\
    dirs (fs s2) = dirs Sample.converted.
Proof.
  destruct (manifest_rewrite Sample.world "models/x_20240105_090307_1234"
              "deepseek-r1-8b" "q4"
              (mkModelConfig "deepseek-ai/DeepSeek-R1-Distill-Llama-8B"
                 "DeepSeek R1 Distilled Llama 8B - optimized reasoning model")
              (initial_state Sample.converted))
    as (s1 & s2 & Hrun1 & Hrun2 & _ & _ & Hdirs & _).
  - reflexivity.
  - vm_compute. reflexivity.
  - vm_compute. reflexivity.
  - exists s1, s2. split; [exact Hrun1|]. split; [exact Hrun2 | exact Hdirs].
Defined.

(** ** The smoke test *)

(** C5.  The smoke test loads the artifact and, the loader having
    returned, makes one generation call, with the fixed prompt, at most
    200 tokens and temperature 0.3, and never a second one; it always
    returns: an exception of the loader or of the generator ends as a
    warning line on the console, and the file system is as before.
    Neither what the driver returns nor the exit status of the process
    depends on what the loader and the generator do. *)
Theorem smoke_test_is_diagnostic W model_path s :
  (exists s' lines calls,
     test_model W model_path s = Ret tt s' /\
     fs s' = fs s /\
     ext_calls s' = (ext_calls s ++ CallLoad model_path :: calls)%list /\
     calls =
       match mlx_load W (fs s) model_path with
       | inl _ => []
       | inr mt => [CallGenerate (fst mt) (snd mt) test_prompt 200 (3 # 10)%Q]
       end /\
     stdout s' = (stdout s ++ lines)%list /\
     (forall e, smoke_exception W (fs s) model_path = Some e ->
                List.last lines "" = "⚠️  Model test failed: " +:+ exc_str e)) /\
  (forall load generate fuel model_name output_dir quantization,
     returned (convert_model_to_mlx (with_loader W load generate) fuel
                 model_name output_dir quantization s) =
     returned (convert_model_to_mlx W fuel model_name output_dir quantization s)) /\
  (forall load generate fuel argv,
     exit_status (script (with_loader W load generate) fuel argv s) =
     exit_status (script W fuel argv s)).
Proof.
  split; [|split].
  - destruct (test_model_run W model_path s)
      as (s' & lines & Hrun & (Hfs & _) & Hcalls & Hout & Hlast).
    exists s', lines. eexists. split; [exact Hrun|]. split; [exact Hfs|].
    split; [|split; [reflexivity|]].
    + rewrite Hcalls. unfold smoke_calls.
      destruct (mlx_load W (fs s) model_path); reflexivity.
    + split; [exact Hout|]. intros e He. now rewrite He in Hlast.
  - intros. apply driver_loader_independent.
  - intros. apply script_loader_independent.
Qed.

(** A failing loader: the smoke test warns, and the process still exits
    with status 0. *)
Lemma smoke_test_is_diagnostic_witness :
  exit_status (script (with_loader Sample.world Sample.load_fails Sample.generate_fails)
                 1 [OptOutput "./models/x"] (initial_state Sample.models_dir))
  = Some 0%Z.
Proof.
  rewrite (proj2 (proj2 (smoke_test_is_diagnostic Sample.world ""
                           (initial_state Sample.models_dir)))).
  vm_compute. reflexivity.
Defined.

(** ** Exit codes *)



(** ** The iOS step *)



(** ** A manifest that cannot be written *)



(* ===================================================================== *)
(** * Further properties of the stages *)
(* ===================================================================== *)

(** ** The environment check *)

Lemma size_le_53 a : (N.size a <= 53)%N <-> (a < 2 ^ 53)%N.
Proof.
  destruct (N.eq_dec a 0%N) as [-> | Hne]; [cbn; lia|].
  rewrite N.size_log2 by exact Hne.
  rewrite (N.log2_lt_pow2 a 53) by lia. lia.
Qed.

(** Below [2^53] the division is exact. *)
Lemma round53_small a : (a < 2 ^ 53)%N -> round53 a = a.
Proof.
  intros H. unfold round53. apply size_le_53 in H.
  apply N.leb_le in H. now rewrite H.
Qed.

(** From [2^53] on its result stays there. *)
Lemma round53_large a : (2 ^ 53 <= a)%N -> (2 ^ 53 <= round53 a)%N.
Proof.
  intros H. unfold round53.
  assert (Hsize : (53 < N.size a)%N).
  { destruct (N.le_gt_cases (N.size a) 53) as [Hle | Hgt]; [|exact Hgt].
    apply size_le_53 in Hle. lia. }
  apply N.leb_gt in Hsize as Hleb. rewrite Hleb. cbv zeta.
  set (shift := (N.size a - 53)%N).
  assert (Hshift : (1 <= shift)%N) by (unfold shift; lia).
  assert (Hq : (2 ^ 52 <= N.shiftr a shift)%N).
  { rewrite N.shiftr_div_pow2.
    assert (Hlow : (2 ^ (N.size a - 1) <= a)%N).
    { rewrite N.size_log2 by lia.
      replace (N.succ (N.log2 a) - 1)%N with (N.log2 a) by lia.
      apply N.log2_spec. lia. }
    replace (N.size a - 1)%N with (shift + 52)%N in Hlow by (unfold shift; lia).
    rewrite N.pow_add_r in Hlow.
    apply N.div_le_lower_bound; [apply N.pow_nonzero; lia | exact Hlow]. }
  set (q := N.shiftr a shift) in *.
  match goal with
  | |- (_ <= N.shiftl ?q' shift)%N => assert (Hq' : (2 ^ 52 <= q')%N)
  end.
  { destruct (_ || _); lia. }
  rewrite N.shiftl_mul_pow2.
  assert (Hpow : (2 ^ 1 <= 2 ^ shift)%N) by (apply N.pow_le_mono_r; lia).
  change (2 ^ 53)%N with (2 ^ 52 * 2 ^ 1)%N.
  apply N.mul_le_mono; assumption.
Qed.

(** Rounding adds at most one bit. *)
Lemma round53_le_pow2 a : (round53 a <= 2 ^ N.size a)%N.
Proof.
  unfold round53. pose proof (N.size_gt a) as Hgt.
  destruct (N.leb_spec (N.size a) 53) as [Hle | Hlt]; [lia|]. cbv zeta.
  set (shift := (N.size a - 53)%N).
  assert (Hq : (N.shiftr a shift < 2 ^ 53)%N).
  { rewrite N.shiftr_div_pow2. apply N.Div0.div_lt_upper_bound.
    rewrite <- N.pow_add_r. replace (shift + 53)%N with (N.size a) by (unfold shift; lia).
    exact Hgt. }
  set (q := N.shiftr a shift) in *.
  match goal with
  | |- (N.shiftl ?q' shift <= _)%N => assert (Hq' : (q' <= 2 ^ 53)%N)
  end.
  { destruct (_ || _); lia. }
  rewrite N.shiftl_mul_pow2.
  replace (N.size a) with (53 + shift)%N by (unfold shift; lia).
  rewrite N.pow_add_r. apply N.mul_le_mono_r. exact Hq'.
Qed.

Lemma round53_overflow a : (1054 < N.size (round53 a))%N -> (2 ^ 1053 <= a)%N.
Proof.
  intros Hbig. pose proof (round53_le_pow2 a) as Hle.
  assert (Hne : round53 a <> 0%N) by (intros E; rewrite E in Hbig; cbn in Hbig; lia).
  rewrite N.size_log2 in Hbig by exact Hne.
  pose proof (N.log2_le_mono _ _ Hle) as Hlog.
  rewrite N.log2_pow2 in Hlog by lia.
  assert (Hsize : (1054 <= N.size a)%N) by lia.
  assert (Ha : a <> 0%N) by (intros E; rewrite E in Hsize; cbn in Hsize; lia).
  rewrite N.size_log2 in Hsize by exact Ha.
  destruct (N.log2_spec a) as [Hlow _]; [lia|].
  eapply N.le_trans; [|exact Hlow].
  apply N.pow_le_mono_r; lia.
Qed.

(** X1.  With the runtime importable the environment check returns
    whatever the memory query does, asks for the memory once and leaves
    the file system, the clock and the random generator alone.  It
    divides the reading by [1024**3] in double precision and prints the
    quotient with one decimal, followed by the low-memory warning exactly
    when the quotient is below 8, which is when the reading is below
    8589934592 bytes; below [2^53] bytes the quotient is exact.  A query
    that raises, or a reading too large for a float (none below
    [2^1053] bytes is), ends as one line that names the exception. *)
Theorem setup_environment_memory_check W s :
  importable W "mlx" = true -> importable W "mlx_lm" = true ->
  (exists s',
     setup_environment W s = Ret tt s' /\
     same_resources s s' /\
     ext_calls s' = (ext_calls s ++ [CallGetActiveMemory])%list /\
     stdout s' =
       (stdout s ++
        [ "Setting up MLX environment...";
          "✅ MLX imported successfully";
          "✅ MLX-LM available" ] ++
        match mx_get_active_memory W with
        | inl e => [ "⚠️  Could not check GPU memory: " +:+ exc_str e ]
        | inr bytes =>
            match true_divide_gib bytes with
            | inl e => [ "⚠️  Could not check GPU memory: " +:+ exc_str e ]
            | inr available_memory =>
                ("📊 Available GPU memory: " +:+
                 format_gib_1f available_memory +:+ " GB") ::
                (if (available_memory <? 8589934592)%N
                 then [ low_memory_warning ] else [])
            end
        end)%list) /\
  (forall bytes available_memory,
     true_divide_gib bytes = inr available_memory ->
     available_memory = round53 bytes /\
     (available_memory <? 8589934592)%N = (bytes <? 8589934592)%N /\
     ((bytes < 2 ^ 53)%N -> available_memory = bytes)) /\
  (forall bytes e,
     true_divide_gib bytes = inl e ->
     exc_class e = "OverflowError" /\ (2 ^ 1053 <= bytes)%N).
Proof.
  intros H1 H2. split; [|split].
  - unfold setup_environment, call_get_active_memory.
    rewrite (py_import_top W "mlx" eq_refl), (py_import_top W "mlx_lm" eq_refl), H1, H2.
    run.
    destruct (mx_get_active_memory W) as [e | bytes]; run.
    + eexists. repeat split; refold_state. cbn [stdout].
      rewrite <- !app_assoc. reflexivity.
    + destruct (true_divide_gib bytes) as [e | numerator]; run.
      * eexists. repeat split; refold_state. cbn [stdout].
        rewrite <- !app_assoc. reflexivity.
      * change (8 * (1024 * 1024 * 1024))%N with 8589934592%N.
        destruct (numerator <? 8589934592)%N; run; eexists; repeat split; refold_state;
          cbn [stdout]; rewrite <- !app_assoc; reflexivity.
  - intros bytes available_memory. unfold true_divide_gib. cbv zeta.
    destruct (1054 <? N.size (round53 bytes))%N; [discriminate|].
    intros E. injection E as <-. split; [reflexivity|].
    destruct (N.lt_ge_cases bytes (2 ^ 53)%N) as [Hlt | Hge].
    + rewrite (round53_small bytes Hlt). split; [reflexivity | reflexivity].
    + pose proof (round53_large bytes Hge) as Hbig. split; [|lia].
      assert (Hconst : (8589934592 < 2 ^ 53)%N) by reflexivity.
      transitivity false; [apply N.ltb_ge | symmetry; apply N.ltb_ge]; lia.
  - intros bytes e. unfold true_divide_gib. cbv zeta.
    destruct (1054 <? N.size (round53 bytes))%N eqn:Hbig; [|discriminate].
    intros E. injection E as <-. split; [reflexivity|].
    apply N.ltb_lt in Hbig. now apply round53_overflow.
Qed.

Lemma setup_environment_memory_check_witness :
  (exists s',
     setup_environment Sample.small_world (initial_state Sample.models_dir) = Ret tt s' /\
     List.last (stdout s') "" = low_memory_warning /\
     fs s' = Sample.models_dir) /\
  (exists s',
     setup_environment Sample.vast_world (initial_state Sample.models_dir) = Ret tt s' /\
     List.last (stdout s') "" = "📊 Available GPU memory: 7097732123.4 GB").
Proof.
  split.
  - destruct (setup_environment_memory_check Sample.small_world
                (initial_state Sample.models_dir))
      as ((s' & Hrun & (Hfs & _) & _ & Hout) & _); [reflexivity | reflexivity |].
    exists s'. split; [exact Hrun|]. split; [|exact Hfs].
    rewrite Hout. vm_compute. reflexivity.
  - destruct (setup_environment_memory_check Sample.vast_world
                (initial_state Sample.models_dir))
      as ((s' & Hrun & _ & _ & Hout) & _); [reflexivity | reflexivity |].
    exists s'. split; [exact Hrun|].
    rewrite Hout. vm_compute. reflexivity.
Defined.

(** ** The iOS step *)


(** ** The manifest writer *)

(** X3.  Called with a model id outside the catalog, the manifest writer
    raises [KeyError] when it looks the description up: by then it has
    read the clock once, and it has written nothing. *)
Theorem generate_model_info_unknown_model W model_path model_name quantization s :
  in_catalog model_name = false ->
  exists e s',
    generate_model_info W model_path model_name quantization s = Raise e s' /\
    exc_class e = "KeyError" /\
    fs s' = fs s /\
    clock_reads s' = S (clock_reads s) /\
    stdout s' = stdout s /\ ext_calls s' = ext_calls s.
Proof.
  intros Hout.
  assert (Hcat : assoc model_name DEEPSEEK_MODELS = None).
  { unfold in_catalog in Hout. now destruct (assoc model_name DEEPSEEK_MODELS). }
  unfold generate_model_info, datetime_now. rewrite Hcat. run.
  eexists _, _. repeat split.
Qed.

Lemma generate_model_info_unknown_model_witness :
  exists e s',
    generate_model_info Sample.world "models/x_20240105_090307_1234" "llama" "q4"
      (initial_state Sample.converted) = Raise e s' /\
    fs s' = Sample.converted.
Proof.
  destruct (generate_model_info_unknown_model Sample.world
              "models/x_20240105_090307_1234" "llama" "q4"
              (initial_state Sample.converted))
    as (e & s' & Hrun & _ & Hfs & _); [reflexivity|].
  exists e, s'. split; [exact Hrun | exact Hfs].
Defined.

(** X4.  On a catalog id the manifest writer writes at most one file.
    When the file can be opened it holds, under [model_name],
    [model_path], [quantization] and [description], the three arguments
    and the description of the catalog, every other file and every
    directory is as before, and the last line on the console names the
    file; when the file cannot be opened the exception of [open]
    propagates and the file system is unchanged. *)
Theorem generate_model_info_one_file W model_path model_name quantization config s :
  assoc model_name DEEPSEEK_MODELS = Some config ->
  match open_w_error W (fs s) (manifest_path model_path) with
  | None =>
      exists s' info,
        generate_model_info W model_path model_name quantization s = Ret tt s' /\
        files (fs s') !! manifest_path model_path = Some info /\
        json_get "model_name" info = Some (JStr model_name) /\
        json_get "model_path" info = Some (JStr model_path) /\
        json_get "quantization" info = Some (JStr quantization) /\
        json_get "description" info = Some (JStr (description config)) /\
        (forall other, other <> manifest_path model_path ->
                       files (fs s') !! other = files (fs s) !! other) /\
        dirs (fs s') = dirs (fs s) /\
        List.last (stdout s') "" =
          "📋 Model info saved to: " +:+ manifest_path model_path
  | Some e =>
      exists s',
        generate_model_info W model_path model_name quantization s = Raise e s' /\
        fs s' = fs s /\ stdout s' = stdout s
  end.
Proof.
  intros Hcat.
  destruct (open_w_error W (fs s) (manifest_path model_path)) as [e|] eqn:Hopen.
  - rewrite (generate_model_info_refused W model_path model_name quantization config e s
               Hcat Hopen).
    eexists. repeat split.
  - unfold generate_model_info, write_json, datetime_now. rewrite Hcat. run.
    fold (manifest_path model_path). rewrite Hopen. run.
    eexists _, _. split; [reflexivity|]. cbn [fs files dirs stdout].
    split; [apply lookup_insert_eq|].
    repeat split.
    + intros other Hne. now apply lookup_insert_ne.
    + apply last_snoc.
Qed.

Lemma generate_model_info_one_file_witness :
  exists s' info,
    generate_model_info Sample.world "models/x_20240105_090307_1234"
      "deepseek-r1-qwen-8b" "q8" (initial_state Sample.converted) = Ret tt s' /\
    files (fs s') !! "models/x_20240105_090307_1234/model_info.json" = Some info /\
    json_get "model_name" info = Some (JStr "deepseek-r1-qwen-8b").
Proof.
  pose proof (generate_model_info_one_file Sample.world "models/x_20240105_090307_1234"
                "deepseek-r1-qwen-8b" "q8"
                (mkModelConfig "deepseek-ai/DeepSeek-R1-Distill-Qwen2.5-7B"
                   "DeepSeek R1 Distilled Qwen 7B - lightweight reasoning model")
                (initial_state Sample.converted) eq_refl) as H.
  change (open_w_error Sample.world (fs (initial_state Sample.converted))
            (manifest_path "models/x_20240105_090307_1234"))
    with (@None Exception) in H.
  destruct H as (s' & info & Hrun & Hfile & Hname & _).
  exists s', info. repeat split; assumption.
Defined.

(** ** The driver *)












(** ** The suffix *)

Lemma zfill_length w n :
  String.length (str_int n) <= w -> String.length (zfill w n) = w.
Proof.
  intros H. unfold zfill. rewrite PathFacts.length_append.
  assert (Hz : forall m, String.length (PyStr.repeat "0" m) = m).
  { induction m as [|m IH]; [reflexivity|]. cbn [PyStr.repeat].
    rewrite PathFacts.length_append, IH. reflexivity. }
  rewrite Hz. lia.
Qed.

Lemma two_digits_upto :
  forallb (fun i => Nat.leb (String.length (str_int (N.of_nat i))) 2) (seq 0 100) = true.
Proof. vm_compute. reflexivity. Qed.

Lemma two_digits n : (n <= 99)%N -> String.length (zfill 2 n) = 2.
Proof.
  intros Hn. apply zfill_length.
  pose proof two_digits_upto as H. rewrite forallb_forall in H.
  specialize (H (N.to_nat n)). rewrite N2Nat.id in H.
  apply Nat.leb_le, H, in_seq. lia.
Qed.

(** X10.  For a clock reading of the calendar the suffix has twenty
    characters: eight digits of the date, an underscore, six digits of
    the time, an underscore and four digits from 1000 to 9999; drawing it
    costs one clock reading and one random draw and nothing else. *)
Theorem fresh_suffix_shape W s :
  calendar (clock W (clock_reads s)) ->
  exists date time digits,
    fresh_suffix W s = Ret (date +:+ "_" +:+ time +:+ "_" +:+ digits) (advance 1 s) /\
    String.length date = 8 /\ all_digits date = true /\
    String.length time = 6 /\ all_digits time = true /\
    String.length digits = 4 /\ all_digits digits = true /\
    String.length (date +:+ "_" +:+ time +:+ "_" +:+ digits) = 20.
Proof.
  intros (Hy & Hm & Hd & Hh & Hmi & Hs).
  set (d := clock W (clock_reads s)) in *.
  destruct (SuffixFacts.randint_four_digits (random_raw W (random_draws s)))
    as [Hlen Hdig].
  pose proof (SuffixFacts.four_digits _ Hy) as Hyear.
  exists (str_int (Datetime.year d) +:+ zfill 2 (Datetime.month d) +:+
          zfill 2 (Datetime.day d)),
    (zfill 2 (Datetime.hour d) +:+ zfill 2 (Datetime.minute d) +:+
     zfill 2 (Datetime.second d)),
    (str_int (randint_of 1000 9999 (random_raw W (random_draws s)))).
  split.
  { rewrite fresh_suffix_run. unfold drawn_suffix, Datetime.strftime_stamp. fold d.
    now rewrite !PathFacts.append_assoc. }
  rewrite !PathFacts.length_append, !SuffixFacts.all_digits_app,
    !SuffixFacts.zfill_digits, !SuffixFacts.str_int_digits, Hyear, Hlen.
  rewrite !two_digits by lia.
  repeat split.
Qed.

Lemma fresh_suffix_shape_witness :
  exists sfx s',
    fresh_suffix Sample.world (initial_state Sample.models_dir) = Ret sfx s' /\
    String.length sfx = 20.
Proof.
  destruct (fresh_suffix_shape Sample.world (initial_state Sample.models_dir))
    as (date & time & digits & Hrun & _ & _ & _ & _ & _ & _ & Hlen).
  - unfold calendar. cbn. lia.
  - eexists _, _. split; [exact Hrun | exact Hlen].
Defined.

(** ** The command line *)

Lemma fold_store_flag items :
  forall ns,
    arg_optimize_ios (fold_left store items ns) =
    arg_optimize_ios ns || existsb is_flag items.
Proof.
  induction items as [|item items IH]; intros ns; cbn [fold_left existsb].
  - now rewrite orb_false_r.
  - rewrite IH.
    destruct item; cbn [store arg_optimize_ios is_flag];
      destruct (arg_optimize_ios ns); reflexivity.
Qed.

Lemma fold_store_output items :
  forall ns,
    (forall v, ~ In (OptOutput v) items) ->
    arg_output (fold_left store items ns) = arg_output ns.
Proof.
  induction items as [|item items IH]; intros ns Hno; [reflexivity|].
  cbn [fold_left]. rewrite IH by (intros v Hv; apply (Hno v); now right).
  destruct item; try reflexivity.
  exfalso. apply (Hno value). now left.
Qed.

(** X11.  The parser accepts exactly the command lines made of
    [--model] with a catalog id, [--quantization] with [q4], [q8] or
    [none], [--output] with any value and [--optimize-ios], and leaves
    the state as it is.  The flag of the result is set exactly when
    [--optimize-ios] occurs; the output directory is the value of the
    last [--output], and the default [./models/deepseek-r1-8b-mlx] when
    there is none. *)
Theorem parse_args_accepts_exactly argv s :
  (forall ns s',
     parse_args argv s = Ret ns s' <->
     forallb acceptable argv = true /\
     ns = fold_left store argv default_namespace /\
     s' = s) /\
  (forall ns s',
     parse_args argv s = Ret ns s' ->
     arg_optimize_ios ns = existsb is_flag argv /\
     ((forall v, ~ In (OptOutput v) argv) ->
      arg_output ns = "./models/deepseek-r1-8b-mlx") /\
     (forall before v after,
        argv = (before ++ OptOutput v :: after)%list ->
        (forall v', ~ In (OptOutput v') after) ->
        arg_output ns = v)).
Proof.
  assert (Hiff : forall ns s',
            parse_args argv s = Ret ns s' <->
            forallb acceptable argv = true /\
            ns = fold_left store argv default_namespace /\ s' = s).
  { intros ns s'. unfold parse_args. rewrite parse_items_accepted. tauto. }
  split; [exact Hiff|].
  intros ns s' Hparse. apply Hiff in Hparse as (_ & -> & _).
  split; [apply fold_store_flag|]. split.
  - intros Hno. now rewrite fold_store_output.
  - intros before v after -> Hno.
    rewrite fold_left_app. cbn [fold_left].
    now rewrite fold_store_output.
Qed.

Lemma parse_args_accepts_exactly_witness :
  parse_args [OptOutput "a"; OptOptimizeIos; OptModel "deepseek-r1-qwen-8b"; OptOutput "b"]
    (initial_state Sample.models_dir) =
  Ret (mkNamespace "deepseek-r1-qwen-8b" "b" "q4" true) (initial_state Sample.models_dir).
Proof.
  apply (proj1 (parse_args_accepts_exactly _ _)). repeat split.
Defined.

(** ** [main] *)






